(** * Jobly backend: the SQL builders of [helpers/sql.js], [models/company.js]
      and [models/job.js], embedded in Rocq.

    The JavaScript of the repository is embedded shallowly:
    - a JavaScript value is a [JsVal]; [truthy] and [ToString] are the
      language's ToBoolean and ToString coercions on these values;
    - an object used as a record of update data is the list of its own
      entries in the order [Object.keys] and [Object.values] enumerate them
      (for the field names of this program, the order of insertion);
    - an object used as a dictionary from field names to column names is a
      [gmap string string] of its own entries; a property read on it also
      finds the members it inherits from [Object.prototype];
    - numbers are integers (the employee counts, salaries and array lengths
      of this program); [pretty] prints them in decimal as a template
      literal does;
    - [db.query] is a parameter of the models; an [Async] computation
      threads the log of the statements sent to it and may throw. *)

From Stdlib Require Import Ascii String ZArith.
From stdpp Require Import gmap strings list pretty.

Local Open Scope string_scope.
Local Open Scope list_scope.
Local Open Scope nat_scope.

(** ** JavaScript values *)

Inductive JsVal : Type :=
| JsUndefined
| JsNull
| JsBool (b : bool)
| JsNum (n : Z)
| JsStr (s : string).

(** ToBoolean: [undefined], [null], [false], [0] and the empty string are
    falsy, every other value is truthy. *)
Definition truthy (v : JsVal) : bool :=
  match v with
  | JsUndefined => false
  | JsNull => false
  | JsBool b => b
  | JsNum n => negb (n =? 0)%Z
  | JsStr s => match s with EmptyString => false | String _ _ => true end
  end.

(** ToString, as applied to the holes of a template literal. *)
Definition ToString (v : JsVal) : string :=
  match v with
  | JsUndefined => "undefined"
  | JsNull => "null"
  | JsBool true => "true"
  | JsBool false => "false"
  | JsNum n => pretty n
  | JsStr s => s
  end.

(** [a || b] *)
Definition js_or (a b : JsVal) : JsVal := if truthy a then a else b.

(** [a === true] *)
Definition is_true_strict (a : JsVal) : bool :=
  match a with JsBool true => true | _ => false end.

(** An optional property of a destructured object: absent is [undefined]. *)
Definition opt_str (o : option string) : JsVal := from_option JsStr JsUndefined o.
Definition opt_num (o : option Z) : JsVal := from_option JsNum JsUndefined o.
Definition opt_bool (o : option bool) : JsVal := from_option JsBool JsUndefined o.

(** [a > b] on numbers that may be absent: a comparison with [undefined]
    is a comparison with NaN, which is false. *)
Definition js_gt (a b : option Z) : bool :=
  match a, b with
  | Some x, Some y => (y <? x)%Z
  | _, _ => false
  end.

(** The double quote character. *)
Definition dq : string := String "034"%char EmptyString.

(** The line break of a multi-line template literal. *)
Definition nl : string := String "010"%char EmptyString.

(** [Array.prototype.join] *)
Fixpoint join (sep : string) (l : list string) : string :=
  match l with
  | [] => EmptyString
  | [x] => x
  | x :: l' => x +:+ sep +:+ join sep l'
  end.

(** ** Errors ([expressError.js]) and results *)

Inductive Error : Type :=
| BadRequestError (message : string)
| NotFoundError (message : string)
| StoreError (message : string).

Inductive Result (A : Type) : Type :=
| Return (a : A)
| Throw (e : Error).
Arguments Return {A} a.
Arguments Throw {A} e.

(** ** The database handle ([db.js]) and asynchronous functions *)

(** A row of a result set is an object: its columns and their values. *)
Definition Row : Type := list (string * JsVal).

(** What [db.query] resolves to. *)
Record QueryResult : Type := { rows : list Row }.

(** A statement sent to the database: its text and its bound values. *)
Definition Statement : Type := (string * list JsVal)%type.

(** The database: for a statement, the result set, or the error the driver
    rejects with. *)
Definition Db : Type := string → list JsVal → Result QueryResult.

(** An [async] function: it runs on the log of the statements already sent
    to the database, returns or throws, and leaves the log extended with
    the statements it sent. *)
Definition Async (A : Type) : Type := list Statement → Result A * list Statement.

Definition ret {A} (a : A) : Async A := λ log, (Return a, log).

Definition throw {A} (e : Error) : Async A := λ log, (Throw e, log).

Definition bind {A B} (c : Async A) (k : A → Async B) : Async B :=
  λ log,
    match c log with
    | (Return a, log') => k a log'
    | (Throw e, log') => (Throw e, log')
    end.

Notation "'await' x <- c ; k" := (bind c (λ x, k))
  (at level 10, x name, c at level 100, k at level 200).

(** [db.query(text, values)] *)
Definition db_query (db : Db) (text : string) (vals : list JsVal) : Async QueryResult :=
  λ log, (db text vals, log ++ [(text, vals)]).

(** Running an [async] function from an empty log. *)
Definition run {A} (c : Async A) : Result A * list Statement := c [].

(** A function that throws before its first [await]: its promise is
    rejected with what was thrown, and nothing has been sent. *)
Definition lift {A} (r : Result A) : Async A := λ log, (r, log).

(** ** Objects

    A row, the body of a request and the payload of a token are objects
    with scalar properties: the list of their entries. *)

(** [o.k]: the property, or [undefined]. *)
Fixpoint obj_get (o : Row) (k : string) : JsVal :=
  match o with
  | [] => JsUndefined
  | (k', v) :: o' => if decide (k' = k) then v else obj_get o' k
  end.

(** [o.k = v]: the property is overwritten where it stands, or added after
    the others. *)
Fixpoint row_set (o : Row) (k : string) (v : JsVal) : Row :=
  match o with
  | [] => [(k, v)]
  | (k', v') :: o' => if decide (k' = k) then (k', v) :: o' else (k', v') :: row_set o' k v
  end.

(** A property of an object that may also hold an array of scalars. *)
Inductive JsProp : Type :=
| PVal (v : JsVal)
| PArr (a : list JsVal).

Definition Obj : Type := list (string * JsProp).

(** [{ ...row }] *)
Definition spread (row : Row) : Obj := prod_map id PVal <$> row.

(** [o.k], when [o] has the property. *)
Fixpoint obj_lookup (o : Obj) (k : string) : option JsProp :=
  match o with
  | [] => None
  | (k', p) :: o' => if decide (k' = k) then Some p else obj_lookup o' k
  end.

(** [{ ...o, k: p }]: the property is overwritten where it stands, or added
    after the others. *)
Fixpoint obj_set (o : Obj) (k : string) (p : JsProp) : Obj :=
  match o with
  | [] => [(k, p)]
  | (k', p') :: o' => if decide (k' = k) then (k', p) :: o' else (k', p') :: obj_set o' k p
  end.

(** [delete o.k] *)
Fixpoint obj_delete (o : Obj) (k : string) : Obj :=
  match o with
  | [] => []
  | (k', p) :: o' => if decide (k' = k) then obj_delete o' k else (k', p) :: obj_delete o' k
  end.

(** ** [Object.prototype]

    An object literal, such as the maps of field names handed to
    [sqlForPartialUpdate], inherits the members of [Object.prototype]: a
    property read finds them when the literal has no entry of that name.
    They are functions, and [__proto__] is the prototype itself; each is
    listed with the text a template literal prints for it under Node. *)
Definition Object_prototype : list (string * string) :=
  [("constructor", "function Object() { [native code] }");
   ("__defineGetter__", "function __defineGetter__() { [native code] }");
   ("__defineSetter__", "function __defineSetter__() { [native code] }");
   ("hasOwnProperty", "function hasOwnProperty() { [native code] }");
   ("__lookupGetter__", "function __lookupGetter__() { [native code] }");
   ("__lookupSetter__", "function __lookupSetter__() { [native code] }");
   ("isPrototypeOf", "function isPrototypeOf() { [native code] }");
   ("propertyIsEnumerable", "function propertyIsEnumerable() { [native code] }");
   ("toString", "function toString() { [native code] }");
   ("valueOf", "function valueOf() { [native code] }");
   ("__proto__", "[object Object]");
   ("toLocaleString", "function toLocaleString() { [native code] }")].

Fixpoint member_text (members : list (string * string)) (name : string) : option string :=
  match members with
  | [] => None
  | (name', text) :: members' =>
      if decide (name' = name) then Some text else member_text members' name
  end.

(** The text of the inherited member of that name, when there is one. *)
Definition inherited (name : string) : option string :=
  member_text Object_prototype name.

(** ** helpers/sql.js *)

Module Sql.

(** The object [sqlForPartialUpdate] returns. *)
Record SetClause : Type := { setCols : string; values : list JsVal }.

Definition Object_keys (o : list (string * JsVal)) : list string := o.*1.

Definition Object_values (o : list (string * JsVal)) : list JsVal := o.*2.

(** What [jsToSql[colName]] finds: an entry of the object literal itself,
    or else a member the literal inherits from [Object.prototype], or
    nothing. *)
Inductive Member : Type :=
| Own (entry : string)
| Inherited (text : string)
| Missing.

(** [jsToSql[colName]] *)
Definition get (jsToSql : gmap string string) (colName : string) : Member :=
  match jsToSql !! colName with
  | Some entry => Own entry
  | None =>
      match inherited colName with
      | Some text => Inherited text
      | None => Missing
      end
  end.

(** [jsToSql[colName] || colName], as the template literal prints it: an
    entry when it is truthy, an inherited member (a function or an
    object, so truthy) as its text, and the key in the other cases. *)
Definition column (jsToSql : gmap string string) (colName : string) : string :=
  match get jsToSql colName with
  | Own entry => ToString (js_or (JsStr entry) (JsStr colName))
  | Inherited text => text
  | Missing => ToString (js_or JsUndefined (JsStr colName))
  end.

(** [keys.map((colName, idx) => `"${jsToSql[colName] || colName}"=$${idx + 1}`)] *)
Definition cols (keys : list string) (jsToSql : gmap string string) : list string :=
  imap (λ idx colName,
          dq +:+ column jsToSql colName +:+ dq +:+ "=$" +:+ pretty (idx + 1))
       keys.

Definition sqlForPartialUpdate
    (dataToUpdate : list (string * JsVal)) (jsToSql : gmap string string)
    : Result SetClause :=
  let keys := Object_keys dataToUpdate in
  if (length keys =? 0)%nat then Throw (BadRequestError "No data")
  else
    Return {| setCols := join ", " (cols keys jsToSql);
              values := Object_values dataToUpdate |}.

End Sql.

(** ** The two arrays a filter fills: [valueArr] and [middlePartOfQueryArr] *)

Record Builder : Type :=
  { valueArr : list JsVal; middlePartOfQueryArr : list string }.

Definition empty_builder : Builder :=
  {| valueArr := []; middlePartOfQueryArr := [] |}.

(** ** models/company.js *)

Module Company.

(** The argument of [filter], destructured: [{ name, minEmployees, maxEmployees }]. *)
Record Query : Type :=
  { name : option string; minEmployees : option Z; maxEmployees : option Z }.

Definition firstPartOfQuery : string :=
  "SELECT handle,"
  +:+ nl +:+ "                              name,"
  +:+ nl +:+ "                              description,"
  +:+ nl +:+ "                              num_employees AS " +:+ dq +:+ "numEmployees" +:+ dq +:+ ","
  +:+ nl +:+ "                              logo_url AS " +:+ dq +:+ "logoUrl" +:+ dq
  +:+ nl +:+ "                            FROM companies WHERE".

Definition lastPartOfQuery : string := "ORDER BY name".

(** [if (name) { ... }] *)
Definition add_name (query : Query) (b : Builder) : Builder :=
  if truthy (opt_str (name query)) then
    let valueArr' := valueArr b ++ [JsStr ("%" +:+ ToString (opt_str (name query)) +:+ "%")] in
    let indexes_name := length valueArr' in
    {| valueArr := valueArr';
       middlePartOfQueryArr :=
         middlePartOfQueryArr b ++ ["name ILIKE $" +:+ pretty indexes_name] |}
  else b.

(** [if (minEmployees) { ... }] *)
Definition add_minEmployees (query : Query) (b : Builder) : Builder :=
  if truthy (opt_num (minEmployees query)) then
    let valueArr' := valueArr b ++ [opt_num (minEmployees query)] in
    let indexes_minEmployees := length valueArr' in
    {| valueArr := valueArr';
       middlePartOfQueryArr :=
         middlePartOfQueryArr b ++ ["num_employees >= $" +:+ pretty indexes_minEmployees] |}
  else b.

(** [if (maxEmployees) { ... }] *)
Definition add_maxEmployees (query : Query) (b : Builder) : Builder :=
  if truthy (opt_num (maxEmployees query)) then
    let valueArr' := valueArr b ++ [opt_num (maxEmployees query)] in
    let indexes_maxEmployees := length valueArr' in
    {| valueArr := valueArr';
       middlePartOfQueryArr :=
         middlePartOfQueryArr b ++ ["num_employees <= $" +:+ pretty indexes_maxEmployees] |}
  else b.

(** The three conditionals in the order of the source, from empty arrays. *)
Definition build (query : Query) : Builder :=
  add_maxEmployees query (add_minEmployees query (add_name query empty_builder)).

(** The text handed to [db.query]:
    [`${firstPartOfQuery} ${middlePartOfQuery} ${lastPartOfQuery}`]. *)
Definition statement (b : Builder) : string :=
  let middlePartOfQuery := join " AND " (middlePartOfQueryArr b) in
  firstPartOfQuery +:+ " " +:+ middlePartOfQuery +:+ " " +:+ lastPartOfQuery.

Definition filter (db : Db) (query : Query) : Async (list Row) :=
  if js_gt (minEmployees query) (maxEmployees query) then
    throw (BadRequestError
             "Maximum employees number must be larger than minimum employees number.")
  else
    let b := build query in
    await companyRes <- db_query db (statement b) (valueArr b);
    if (length (rows companyRes) =? 0)%nat then
      throw (NotFoundError "No company found matching your search criteria")
    else ret (rows companyRes).

(** The object literal [update] hands to [sqlForPartialUpdate]. *)
Definition jsToSql : gmap string string :=
  {[ "numEmployees" := "num_employees"; "logoUrl" := "logo_url" ]}.

Definition create_check_statement : string :=
  "SELECT handle"
  +:+ nl +:+ "           FROM companies"
  +:+ nl +:+ "           WHERE handle = $1".

Definition create_insert_statement : string :=
  "INSERT INTO companies"
  +:+ nl +:+ "           (handle, name, description, num_employees, logo_url)"
  +:+ nl +:+ "           VALUES ($1, $2, $3, $4, $5)"
  +:+ nl +:+ "           RETURNING handle, name, description, num_employees AS " +:+ dq +:+ "numEmployees" +:+ dq +:+ ", logo_url AS " +:+ dq +:+ "logoUrl" +:+ dq.

(** [create({ handle, name, description, numEmployees, logoUrl })]; the
    result is [result.rows[0]], which is [undefined] ([None]) when the
    INSERT returns no row. *)
Definition create (db : Db) (data : Row) : Async (option Row) :=
  let handle := obj_get data "handle" in
  let name := obj_get data "name" in
  let description := obj_get data "description" in
  let numEmployees := obj_get data "numEmployees" in
  let logoUrl := obj_get data "logoUrl" in
  await duplicateCheck <- db_query db create_check_statement [handle];
  match head (rows duplicateCheck) with
  | Some _ => throw (BadRequestError ("Duplicate company: " +:+ ToString handle))
  | None =>
      await result <-
        db_query db create_insert_statement
          [handle; name; description; numEmployees; logoUrl];
      let company := head (rows result) in
      ret company
  end.

Definition findAll_statement : string :=
  "SELECT handle,"
  +:+ nl +:+ "                  name,"
  +:+ nl +:+ "                  description,"
  +:+ nl +:+ "                  num_employees AS " +:+ dq +:+ "numEmployees" +:+ dq +:+ ","
  +:+ nl +:+ "                  logo_url AS " +:+ dq +:+ "logoUrl" +:+ dq
  +:+ nl +:+ "           FROM companies"
  +:+ nl +:+ "           ORDER BY name".

Definition findAll (db : Db) : Async (list Row) :=
  await companiesRes <- db_query db findAll_statement [];
  ret (rows companiesRes).

Definition get_statement : string :=
  "SELECT c.handle,"
  +:+ nl +:+ "              c.name,"
  +:+ nl +:+ "              c.description,"
  +:+ nl +:+ "              c.num_employees AS " +:+ dq +:+ "numEmployees" +:+ dq +:+ ","
  +:+ nl +:+ "              c.logo_url AS " +:+ dq +:+ "logoUrl" +:+ dq +:+ ", "
  +:+ nl +:+ "              j.id,"
  +:+ nl +:+ "              j.company_handle"
  +:+ nl +:+ "        FROM companies AS c"
  +:+ nl +:+ "        LEFT JOIN jobs AS j"
  +:+ nl +:+ "        ON c.handle = j.company_handle"
  +:+ nl +:+ "        WHERE c.handle = $1".

(** [get(handle)]: the first row without its [id] and [company_handle],
    with the ids of the jobs under [jobs]. *)
Definition get (db : Db) (handle : JsVal) : Async Obj :=
  await companyRes <- db_query db get_statement [handle];
  match head (rows companyRes) with
  | None => throw (NotFoundError ("No company with handle: " +:+ ToString handle))
  | Some row0 =>
      let jobIds :=
        if truthy (obj_get row0 "id")
        then (λ row, obj_get row "id") <$> rows companyRes
        else [] in
      let companyFinal := obj_set (spread row0) "jobs" (PArr jobIds) in
      let companyFinal := obj_delete companyFinal "id" in
      let companyFinal := obj_delete companyFinal "company_handle" in
      ret companyFinal
  end.

(** The text of the UPDATE, around [setCols] and [handleVarIdx]. *)
Definition update_statement (setCols handleVarIdx : string) : string :=
  "UPDATE companies "
  +:+ nl +:+ "                      SET " +:+ setCols +:+ " "
  +:+ nl +:+ "                      WHERE handle = " +:+ handleVarIdx +:+ " "
  +:+ nl +:+ "                      RETURNING handle, "
  +:+ nl +:+ "                                name, "
  +:+ nl +:+ "                                description, "
  +:+ nl +:+ "                                num_employees AS " +:+ dq +:+ "numEmployees" +:+ dq +:+ ", "
  +:+ nl +:+ "                                logo_url AS " +:+ dq +:+ "logoUrl" +:+ dq.

Definition update (db : Db) (handle : JsVal) (data : list (string * JsVal))
    : Async Row :=
  await clause <- lift (Sql.sqlForPartialUpdate data jsToSql);
  let setCols := Sql.setCols clause in
  let values := Sql.values clause in
  let handleVarIdx := "$" +:+ pretty (length values + 1) in
  let querySql := update_statement setCols handleVarIdx in
  await result <- db_query db querySql (values ++ [handle]);
  match head (rows result) with
  | None => throw (NotFoundError ("No company: " +:+ ToString handle))
  | Some company => ret company
  end.

Definition remove_statement : string :=
  "DELETE"
  +:+ nl +:+ "           FROM companies"
  +:+ nl +:+ "           WHERE handle = $1"
  +:+ nl +:+ "           RETURNING handle".

Definition remove (db : Db) (handle : JsVal) : Async unit :=
  await result <- db_query db remove_statement [handle];
  match head (rows result) with
  | None => throw (NotFoundError ("No company: " +:+ ToString handle))
  | Some company => ret ()
  end.

End Company.

(** ** models/job.js *)

Module Job.

(** The argument of [filter], destructured: [{ title, minSalary, hasEquity }]. *)
Record Query : Type :=
  { title : option string; minSalary : option Z; hasEquity : option bool }.

Definition firstPartOfQuery : string :=
  "SELECT id, title, salary, equity, company_handle AS "
  +:+ dq +:+ "companyHandle" +:+ dq +:+ " FROM jobs WHERE".

Definition lastPartOfQuery : string := "ORDER BY title".

(** [if (title) { ... }] *)
Definition add_title (query : Query) (b : Builder) : Builder :=
  if truthy (opt_str (title query)) then
    let valueArr' := valueArr b ++ [JsStr ("%" +:+ ToString (opt_str (title query)) +:+ "%")] in
    let indexes_title := length valueArr' in
    {| valueArr := valueArr';
       middlePartOfQueryArr :=
         middlePartOfQueryArr b ++ ["title ILIKE $" +:+ pretty indexes_title] |}
  else b.

(** [if (minSalary) { ... }] *)
Definition add_minSalary (query : Query) (b : Builder) : Builder :=
  if truthy (opt_num (minSalary query)) then
    let valueArr' := valueArr b ++ [opt_num (minSalary query)] in
    let indexes_minSalary := length valueArr' in
    {| valueArr := valueArr';
       middlePartOfQueryArr :=
         middlePartOfQueryArr b ++ ["salary > $" +:+ pretty indexes_minSalary] |}
  else b.

(** [if (hasEquity === true) { ... }] *)
Definition add_hasEquity (query : Query) (b : Builder) : Builder :=
  if is_true_strict (opt_bool (hasEquity query)) then
    {| valueArr := valueArr b;
       middlePartOfQueryArr := middlePartOfQueryArr b ++ ["equity > 0"] |}
  else b.

(** The three conditionals in the order of the source, from empty arrays. *)
Definition build (query : Query) : Builder :=
  add_hasEquity query (add_minSalary query (add_title query empty_builder)).

(** The text handed to [db.query]:
    [`${firstPartOfQuery} ${middlePartOfQuery} ${lastPartOfQuery}`]. *)
Definition statement (b : Builder) : string :=
  let middlePartOfQuery := join " AND " (middlePartOfQueryArr b) in
  firstPartOfQuery +:+ " " +:+ middlePartOfQuery +:+ " " +:+ lastPartOfQuery.

Definition filter (db : Db) (query : Query) : Async (list Row) :=
  let b := build query in
  await jobsRes <- db_query db (statement b) (valueArr b);
  if (length (rows jobsRes) =? 0)%nat then
    throw (NotFoundError "No jobs found matching your search criteria")
  else ret (rows jobsRes).

(** [filter] on the object a caller hands over, whose properties may hold
    any value: the three conditionals on what the destructuring
    [{ title, minSalary, hasEquity } = query] reads. [Query] above is such
    an object with a string, a number and a boolean, where present. *)
Definition push_title (title : JsVal) (b : Builder) : Builder :=
  if truthy title then
    let valueArr' := valueArr b ++ [JsStr ("%" +:+ ToString title +:+ "%")] in
    let indexes_title := length valueArr' in
    {| valueArr := valueArr';
       middlePartOfQueryArr :=
         middlePartOfQueryArr b ++ ["title ILIKE $" +:+ pretty indexes_title] |}
  else b.

Definition push_minSalary (minSalary : JsVal) (b : Builder) : Builder :=
  if truthy minSalary then
    let valueArr' := valueArr b ++ [minSalary] in
    let indexes_minSalary := length valueArr' in
    {| valueArr := valueArr';
       middlePartOfQueryArr :=
         middlePartOfQueryArr b ++ ["salary > $" +:+ pretty indexes_minSalary] |}
  else b.

Definition push_hasEquity (hasEquity : JsVal) (b : Builder) : Builder :=
  if is_true_strict hasEquity then
    {| valueArr := valueArr b;
       middlePartOfQueryArr := middlePartOfQueryArr b ++ ["equity > 0"] |}
  else b.

Definition build_of (query : Row) : Builder :=
  let title := obj_get query "title" in
  let minSalary := obj_get query "minSalary" in
  let hasEquity := obj_get query "hasEquity" in
  push_hasEquity hasEquity (push_minSalary minSalary (push_title title empty_builder)).

Definition filter_of (db : Db) (query : Row) : Async (list Row) :=
  let b := build_of query in
  await jobsRes <- db_query db (statement b) (valueArr b);
  if (length (rows jobsRes) =? 0)%nat then
    throw (NotFoundError "No jobs found matching your search criteria")
  else ret (rows jobsRes).

(** The object with the properties a [Query] has. *)
Definition object_of (query : Query) : Row :=
  from_option (λ s, [("title", JsStr s)]) [] (title query)
  ++ from_option (λ n, [("minSalary", JsNum n)]) [] (minSalary query)
  ++ from_option (λ b, [("hasEquity", JsBool b)]) [] (hasEquity query).

Definition findAll_statement : string :=
  "SELECT id,"
  +:+ nl +:+ "                  title,"
  +:+ nl +:+ "                  salary,"
  +:+ nl +:+ "                  equity,"
  +:+ nl +:+ "                  company_handle AS " +:+ dq +:+ "companyHandle" +:+ dq
  +:+ nl +:+ "           FROM jobs"
  +:+ nl +:+ "           ORDER BY title".

Definition findAll (db : Db) : Async (list Row) :=
  await jobsRes <- db_query db findAll_statement [];
  ret (rows jobsRes).

Definition create_check_statement : string :=
  "SELECT handle"
  +:+ nl +:+ "         FROM companies"
  +:+ nl +:+ "         WHERE handle = $1".

Definition create_insert_statement : string :=
  "INSERT INTO jobs"
  +:+ nl +:+ "           (title, salary, equity, company_handle)"
  +:+ nl +:+ "           VALUES ($1, $2, $3, $4)"
  +:+ nl +:+ "           RETURNING id, title, salary, equity, company_handle AS " +:+ dq +:+ "companyHandle" +:+ dq.

(** [create({ title, salary, equity, companyHandle })] *)
Definition create (db : Db) (data : Row) : Async (option Row) :=
  let title := obj_get data "title" in
  let salary := obj_get data "salary" in
  let equity := obj_get data "equity" in
  let companyHandle := obj_get data "companyHandle" in
  await handleExists <- db_query db create_check_statement [companyHandle];
  if length (rows handleExists) =? 0 then
    throw (BadRequestError ("No company with handle: " +:+ ToString companyHandle))
  else
    await result <-
      db_query db create_insert_statement [title; salary; equity; companyHandle];
    let job := head (rows result) in
    ret job.

Definition get_statement : string :=
  "SELECT id,"
  +:+ nl +:+ "                  title,"
  +:+ nl +:+ "                  salary,"
  +:+ nl +:+ "                  equity,"
  +:+ nl +:+ "                  company_handle AS " +:+ dq +:+ "companyHandle" +:+ dq
  +:+ nl +:+ "           FROM jobs"
  +:+ nl +:+ "           WHERE id = $1".

Definition get (db : Db) (id : JsVal) : Async Row :=
  await jobRes <- db_query db get_statement [id];
  match head (rows jobRes) with
  | None => throw (NotFoundError ("No job with id: " +:+ ToString id))
  | Some job => ret job
  end.

(** The text of the UPDATE, around [setCols] and [idIdx]. *)
Definition update_statement (setCols idIdx : string) : string :=
  "UPDATE jobs "
  +:+ nl +:+ "                      SET " +:+ setCols +:+ " "
  +:+ nl +:+ "                      WHERE id = " +:+ idIdx +:+ " "
  +:+ nl +:+ "                      RETURNING id, "
  +:+ nl +:+ "                                title, "
  +:+ nl +:+ "                                salary, "
  +:+ nl +:+ "                                equity, "
  +:+ nl +:+ "                                company_handle AS " +:+ dq +:+ "companyHandle" +:+ dq.

Definition update (db : Db) (id : JsVal) (data : list (string * JsVal)) : Async Row :=
  await clause <- lift (Sql.sqlForPartialUpdate data ∅);
  let setCols := Sql.setCols clause in
  let values := Sql.values clause in
  let idIdx := "$" +:+ pretty (length values + 1) in
  let querySql := update_statement setCols idIdx in
  await result <- db_query db querySql (values ++ [id]);
  match head (rows result) with
  | None => throw (NotFoundError ("No job with id: " +:+ ToString id))
  | Some job => ret job
  end.

Definition remove_statement : string :=
  "DELETE"
  +:+ nl +:+ "           FROM jobs"
  +:+ nl +:+ "           WHERE id = $1"
  +:+ nl +:+ "           RETURNING id".

Definition remove (db : Db) (id : JsVal) : Async unit :=
  await result <- db_query db remove_statement [id];
  match head (rows result) with
  | None => throw (NotFoundError ("No job with id: " +:+ ToString id))
  | Some company => ret ()
  end.

End Job.

(** ** middleware/auth.js *)

(** [a === b] on the values of this model is equality. *)
Global Instance JsVal_eq_dec : EqDecision JsVal.
Proof. solve_decision. Defined.

Definition strict_eq (a b : JsVal) : bool := bool_decide (a = b).

(** What a middleware or a handler passes to [next] as an error: an
    UnauthorizedError (without message argument, the class gives its
    default), the TypeError of a property read on [undefined], the
    BadRequestError a handler builds from the messages of the validator,
    and what a model throws. *)
Inductive Thrown : Type :=
| UnauthorizedError (message : option string)
| TypeError
| BadRequestErrors (errs : list string)
| Raised (e : Error).

(** The request: [req.params] and [req.body]. *)
Record Req : Type := { params : Row; body : Row }.

(** [res.locals]: the payload of the token, when [authenticateJWT] has
    stored one. *)
Record Locals : Type := { user : option Row }.

(** A middleware ends with [next()] or with [next(err)]. *)
Inductive Outcome : Type :=
| Next
| NextErr (err : Thrown).

Definition Middleware : Type := Req → Locals → Outcome.

Module Auth.

Definition ensureLoggedIn : Middleware :=
  λ req res,
    match user res with
    | None => NextErr (UnauthorizedError None)
    | Some _ => Next
    end.

Definition ensureIsAdmin : Middleware :=
  λ req res,
    match user res with
    | None => NextErr TypeError
    | Some u =>
        if negb (truthy (obj_get u "isAdmin"))
        then NextErr (UnauthorizedError (Some "Only authorized for admins"))
        else Next
    end.

Definition ensureIsAdminOrSelf : Middleware :=
  λ req res,
    match user res with
    | None => NextErr TypeError
    | Some user =>
        if strict_eq (obj_get user "username") (obj_get (params req) "username")
           || truthy (obj_get user "isAdmin")
        then Next
        else NextErr (UnauthorizedError (Some "Not authorized"))
    end.

End Auth.

(** The middlewares of a route run in order; the first [next(err)] skips
    the rest and the handler. *)
Fixpoint run_chain (mws : list Middleware) (req : Req) (res : Locals) : Outcome :=
  match mws with
  | [] => Next
  | mw :: mws' =>
      match mw req res with
      | Next => run_chain mws' req res
      | NextErr err => NextErr err
      end
  end.

(** What a request ends with: a JSON response with its status, or an error
    passed to [next]. *)
Inductive Body : Type :=
| job_body (job : option Row)
| jobs_body (jobs : list Row)
| deleted_body (deleted : JsVal).

Inductive Reply : Type :=
| Json (status : nat) (json : Body)
| Failed (err : Thrown).

(** A handler, and a route: on the log of the statements sent so far. *)
Definition Handler : Type := Req → Locals → list Statement → Reply * list Statement.

(** [router.METHOD(path, ...mws, handler)] *)
Definition route (mws : list Middleware) (handler : Handler) : Handler :=
  λ req res log,
    match run_chain mws req res with
    | Next => handler req res log
    | NextErr err => (Failed err, log)
    end.

(** [try { const x = await c; return res.status(s).json(...) } catch (err) { return next(err) }] *)
Definition respond {A} (c : Async A) (status : nat) (json : A → Body)
    : list Statement → Reply * list Statement :=
  λ log,
    match c log with
    | (Return a, log') => (Json status (json a), log')
    | (Throw e, log') => (Failed (Raised e), log')
    end.

(** [jsonschema.validate(instance, schema)], a parameter of the routes:
    whether the instance is valid, and the [stack] of each error. *)
Inductive Schema : Type := jobNewSchema | jobUpdateSchema | jobSearchSchema.

Record ValidatorResult : Type := { valid : bool; errors : list string }.

Definition Validate : Type := Row → Schema → ValidatorResult.

(** ** routes/jobs.js

    [req.query] is the object the query string was parsed to, with a
    string for each parameter; [Number] is the conversion of the language
    and [jsonschema.validate] the validator, both parameters here. *)

Module JobsRouter.

(** [if (req.query.minSalary) req.query.minSalary = Number(req.query.minSalary);] *)
Definition convert_minSalary (Number : JsVal → JsVal) (query : Row) : Row :=
  if truthy (obj_get query "minSalary")
  then row_set query "minSalary" (Number (obj_get query "minSalary"))
  else query.

(** [if (req.query.hasEquity) { req.query.hasEquity === "true"
      ? (req.query.hasEquity = true) : (req.query.hasEquity = false); }] *)
Definition convert_hasEquity (query : Row) : Row :=
  if truthy (obj_get query "hasEquity") then
    if strict_eq (obj_get query "hasEquity") (JsStr "true")
    then row_set query "hasEquity" (JsBool true)
    else row_set query "hasEquity" (JsBool false)
  else query.

(** [GET /], on [req.query]: the two conversions, the validation of the
    converted object, then the search or the listing. *)
Definition get_root (Number : JsVal → JsVal) (validate : Validate) (db : Db) (query : Row)
    : list Statement → Reply * list Statement :=
  λ log,
    let query := convert_hasEquity (convert_minSalary Number query) in
    let validator := validate query jobSearchSchema in
    if negb (valid validator) then
      (Failed (BadRequestErrors (errors validator)), log)
    else
      let title := obj_get query "title" in
      let minSalary := obj_get query "minSalary" in
      let hasEquity := obj_get query "hasEquity" in
      if truthy (js_or (js_or title minSalary) hasEquity) then
        respond (Job.filter_of db query) 200 jobs_body log
      else
        respond (Job.findAll db) 200 jobs_body log.

(** [POST /] *)
Definition post_root (validate : Validate) (db : Db) : Handler :=
  route [Auth.ensureLoggedIn; Auth.ensureIsAdmin]
    (λ req res log,
       let validator := validate (body req) jobNewSchema in
       if negb (valid validator) then
         (Failed (BadRequestErrors (errors validator)), log)
       else respond (Job.create db (body req)) 201 job_body log).

(** [GET /:id] *)
Definition get_id (db : Db) : Handler :=
  route []
    (λ req res log,
       respond (Job.get db (obj_get (params req) "id")) 200 (λ job, job_body (Some job)) log).

(** [PATCH /:id] *)
Definition patch_id (validate : Validate) (db : Db) : Handler :=
  route [Auth.ensureLoggedIn; Auth.ensureIsAdmin]
    (λ req res log,
       let validator := validate (body req) jobUpdateSchema in
       if negb (valid validator) then
         (Failed (BadRequestErrors (errors validator)), log)
       else
         respond (Job.update db (obj_get (params req) "id") (body req)) 200
           (λ job, job_body (Some job)) log).

(** [DELETE /:id]; [Number] is the conversion of the language. *)
Definition delete_id (Number : JsVal → JsVal) (db : Db) : Handler :=
  route [Auth.ensureLoggedIn; Auth.ensureIsAdmin]
    (λ req res log,
       respond (Job.remove db (obj_get (params req) "id")) 200
         (λ _, deleted_body (Number (obj_get (params req) "id"))) log).

End JobsRouter.

(** ** The other writing of [Company.filter] ([src/unnamed/part_002],
       and the same in [src/unnamed/part_000]) *)

Module CompanyAlt.

Definition queryStringStart : string :=
  "SELECT handle,"
  +:+ nl +:+ "                              name,"
  +:+ nl +:+ "                              description,"
  +:+ nl +:+ "                              num_employees AS " +:+ dq +:+ "numEmployees" +:+ dq +:+ ","
  +:+ nl +:+ "                              logo_url AS " +:+ dq +:+ "logoUrl" +:+ dq
  +:+ nl +:+ "                            FROM companies WHERE ".

Definition queryStringEnd : string := "ORDER BY name".

(** The variables the function assigns. *)
Record Vars : Type :=
  { queryStringMiddle : string;
    valueArray : list JsVal;
    queryStringEmpFiltering : list string }.

Definition init : Vars :=
  {| queryStringMiddle := EmptyString; valueArray := [];
     queryStringEmpFiltering := [] |}.

(** [if (name) { ... }] *)
Definition add_name (query : Company.Query) (s : Vars) : Vars :=
  if truthy (opt_str (Company.name query)) then
    let valueArray' :=
      valueArray s ++ [JsStr ("%" +:+ ToString (opt_str (Company.name query)) +:+ "%")] in
    let valueIndices_name := length valueArray' in
    {| queryStringMiddle :=
         queryStringMiddle s +:+ ("name ILIKE $" +:+ pretty valueIndices_name);
       valueArray := valueArray';
       queryStringEmpFiltering := queryStringEmpFiltering s |}
  else s.

(** [if (minEmployees) { ... }] *)
Definition add_minEmployees (query : Company.Query) (s : Vars) : Vars :=
  if truthy (opt_num (Company.minEmployees query)) then
    let valueArray' := valueArray s ++ [opt_num (Company.minEmployees query)] in
    let valueIndices_minEmployees := length valueArray' in
    {| queryStringMiddle := queryStringMiddle s;
       valueArray := valueArray';
       queryStringEmpFiltering :=
         queryStringEmpFiltering s
         ++ ["num_employees >= $" +:+ pretty valueIndices_minEmployees] |}
  else s.

(** [if (maxEmployees) { ... }] *)
Definition add_maxEmployees (query : Company.Query) (s : Vars) : Vars :=
  if truthy (opt_num (Company.maxEmployees query)) then
    let valueArray' := valueArray s ++ [opt_num (Company.maxEmployees query)] in
    let valueIndices_maxEmployees := length valueArray' in
    {| queryStringMiddle := queryStringMiddle s;
       valueArray := valueArray';
       queryStringEmpFiltering :=
         queryStringEmpFiltering s
         ++ ["num_employees <= $" +:+ pretty valueIndices_maxEmployees] |}
  else s.

(** The last conditional: the name fragment and the others are joined, or
    the others alone. *)
Definition join_middle (query : Company.Query) (s : Vars) : Vars :=
  if truthy (opt_str (Company.name query)) then
    {| queryStringMiddle :=
         join " AND " (queryStringMiddle s :: queryStringEmpFiltering s);
       valueArray := valueArray s;
       queryStringEmpFiltering := queryStringEmpFiltering s |}
  else
    {| queryStringMiddle := join " AND " (queryStringEmpFiltering s);
       valueArray := valueArray s;
       queryStringEmpFiltering := queryStringEmpFiltering s |}.

Definition build (query : Company.Query) : Vars :=
  join_middle query
    (add_maxEmployees query (add_minEmployees query (add_name query init))).

(** [`${queryStringStart} ${queryStringMiddle} ${queryStringEnd}`] *)
Definition statement (s : Vars) : string :=
  queryStringStart +:+ " " +:+ queryStringMiddle s +:+ " " +:+ queryStringEnd.

Definition filter (db : Db) (query : Company.Query) : Async (list Row) :=
  if js_gt (Company.minEmployees query) (Company.maxEmployees query) then
    throw (BadRequestError
             "Maximum employees number must be larger than minimum employees number.")
  else
    let s := build query in
    await companiesRes <- db_query db (statement s) (valueArray s);
    if (length (rows companiesRes) =? 0)%nat then
      throw (NotFoundError "No company matching your search criteria was found.")
    else ret (rows companiesRes).

End CompanyAlt.

(** ** Notions of the specification

    The definitions of this section are not code of the repository: they
    are the words the properties below are stated in. *)

(** The positional placeholder [$N]. *)
Definition placeholder (N : nat) : string := "$" +:+ pretty N.

(** The column name of a SET fragment in the words of the specification,
    once amended: the entry of the map when there is one and it is not the
    empty string; the key itself when the entry is the empty string; and
    without entry, the key itself unless it names a member every object
    inherits, which is then printed. *)
Definition physical_name (M : gmap string string) (k : string) : string :=
  match M !! k with
  | Some EmptyString => k
  | Some p => p
  | None =>
      match inherited k with
      | Some text => text
      | None => k
      end
  end.






(** Does the text contain the character [$]? *)
Fixpoint contains_dollar (s : string) : bool :=
  match s with
  | EmptyString => false
  | String c s' => if Ascii.eqb c "$"%char then true else contains_dollar s'
  end.






(** Skipping the blanks and line breaks a text starts with. *)
Fixpoint skip_blanks (s : string) : string :=
  match s with
  | String c s' =>
      if (Ascii.eqb c " "%char || Ascii.eqb c "010"%char)%bool then skip_blanks s' else s
  | EmptyString => s
  end.

(** Is the WHERE clause of the text left without a condition: is there a
    [WHERE] followed, after blanks, by the end of the text or by
    [ORDER BY]? *)
Fixpoint dangling_where (text : string) : bool :=
  match text with
  | EmptyString => false
  | String _ rest =>
      (String.prefix "WHERE" text
       && (let body := skip_blanks (String.substring 5 (String.length text - 5) text) in
           match body with
           | EmptyString => true
           | _ => String.prefix "ORDER BY" body
           end))
      || dangling_where rest
  end.

(** Does the text have a WHERE clause at all? *)
Fixpoint has_where (text : string) : bool :=
  match text with
  | EmptyString => false
  | String _ rest => String.prefix "WHERE" text || has_where rest
  end.

(** Does the request carry the token of an admin: a payload whose
    [isAdmin] is truthy? *)
Definition is_admin (res : Locals) : bool :=
  match user res with
  | Some u => truthy (obj_get u "isAdmin")
  | None => false
  end.

(** A database that answers each text of a table with the rows beside it,
    and every other text with no row. *)
Fixpoint answer (table : list (string * list Row)) (text : string) : list Row :=
  match table with
  | [] => []
  | (text', rs) :: table' => if decide (text' = text) then rs else answer table' text
  end.

Definition db_table (table : list (string * list Row)) : Db :=
  λ text _, Return {| rows := answer table text |}.

(** A database that finds no row, and one that finds the given rows. *)
Definition db_empty : Db := λ _ _, Return {| rows := [] |}.

Definition db_const (rs : list Row) : Db := λ _ _, Return {| rows := rs |}.

(** * Properties *)

(** ** Strings, decimal numerals and the placeholders of a text *)

Lemma string_app_assoc (s1 s2 s3 : string) : (s1 +:+ s2) +:+ s3 = s1 +:+ (s2 +:+ s3).
Proof.
  induction s1 as [|c s1 IH]; [done|].
  change (String c ((s1 +:+ s2) +:+ s3) = String c (s1 +:+ (s2 +:+ s3))).
  by rewrite IH.
Qed.




Lemma join_cons_cons (sep x y : string) (l : list string) :
  join sep (x :: y :: l) = x +:+ sep +:+ join sep (y :: l).
Proof. done. Qed.















(** ** The partial-update builder *)

Section sql_for_partial_update.
Import Sql.
Implicit Types (P : list (string * JsVal)) (M : gmap string string).

Lemma column_physical_name M k : column M k = physical_name M k.
Proof.
  unfold column, physical_name, get, js_or.
  destruct (M !! k) as [[|c p]|]; [done|done|]. by destruct (inherited k).
Qed.

Lemma length_cols keys M : length (cols keys M) = length keys.
Proof. apply length_imap. Qed.

Lemma cols_lookup keys M i :
  cols keys M !! i
  = (λ k, dq +:+ column M k +:+ dq +:+ "=" +:+ placeholder (i + 1)) <$> keys !! i.
Proof. unfold cols. by rewrite list_lookup_imap. Qed.

Lemma keys_lookup P i k v : P !! i = Some (k, v) → Object_keys P !! i = Some k.
Proof. intros H. unfold Object_keys. by rewrite list_lookup_fmap, H. Qed.


Lemma sqlForPartialUpdate_cons kv P M :
  sqlForPartialUpdate (kv :: P) M
  = Return {| setCols := join ", " (cols (Object_keys (kv :: P)) M);
              values := Object_values (kv :: P) |}.
Proof. done. Qed.

Lemma sqlForPartialUpdate_nil M :
  sqlForPartialUpdate [] M = Throw (BadRequestError "No data").
Proof. done. Qed.

End sql_for_partial_update.

Lemma placeholder_inj : Inj (=) (=) placeholder.
Proof.
  intros m n H. unfold placeholder in H. simpl in H.
  injection H as H. by apply (inj pretty).
Qed.

Lemma placeholders_NoDup (n : nat) : NoDup (placeholder <$> seq 1 n).
Proof. apply (NoDup_fmap_2 _), NoDup_seq. Qed.


(** C5. Whatever the map of field names, [sqlForPartialUpdate] on data
    without keys throws the BadRequestError [No data], and on data with at
    least one key it returns; it throws nothing else, and only then. *)
Theorem sqlForPartialUpdate_no_data (M : gmap string string) :
  Sql.sqlForPartialUpdate [] M = Throw (BadRequestError "No data")
  ∧ (∀ kv P, ∃ clause, Sql.sqlForPartialUpdate (kv :: P) M = Return clause)
  ∧ (∀ P e, Sql.sqlForPartialUpdate P M = Throw e ↔
            length (Sql.Object_keys P) = 0 ∧ e = BadRequestError "No data").
Proof.
  split_and!.
  - apply sqlForPartialUpdate_nil.
  - intros kv P. eexists. apply sqlForPartialUpdate_cons.
  - intros [|kv P] e.
    + rewrite sqlForPartialUpdate_nil. split.
      * intros [= <-]. done.
      * intros [_ ->]. done.
    + rewrite sqlForPartialUpdate_cons. split; [done|]. intros [H _]. done.
Qed.




(** ** The filter builders *)

Lemma contains_dollar_equity : contains_dollar "equity > 0" = false.
Proof. reflexivity. Qed.




















(** ** The filters as asynchronous functions *)

(** What [Job.filter] does on any log: one statement, then the check of
    the rows. *)
Lemma job_filter_unfold db q log :
  Job.filter db q log
  = match db (Job.statement (Job.build q)) (valueArr (Job.build q)) with
    | Return res =>
        (if length (rows res) =? 0
         then Throw (NotFoundError "No jobs found matching your search criteria")
         else Return (rows res),
         log ++ [(Job.statement (Job.build q), valueArr (Job.build q))])
    | Throw e => (Throw e, log ++ [(Job.statement (Job.build q), valueArr (Job.build q))])
    end.
Proof.
  unfold Job.filter, bind, db_query, throw, ret.
  destruct (db _ _) as [res|e]; [|done]. by destruct (length (rows res) =? 0).
Qed.

(** What [Company.filter] does on any log once the bounds are in order. *)
Lemma company_filter_unfold db q log :
  js_gt (Company.minEmployees q) (Company.maxEmployees q) = false →
  Company.filter db q log
  = match db (Company.statement (Company.build q)) (valueArr (Company.build q)) with
    | Return res =>
        (if length (rows res) =? 0
         then Throw (NotFoundError "No company found matching your search criteria")
         else Return (rows res),
         log ++ [(Company.statement (Company.build q), valueArr (Company.build q))])
    | Throw e =>
        (Throw e, log ++ [(Company.statement (Company.build q), valueArr (Company.build q))])
    end.
Proof.
  intros Hgt. unfold Company.filter, bind, db_query, throw, ret. rewrite Hgt.
  destruct (db _ _) as [res|e]; [|done]. by destruct (length (rows res) =? 0).
Qed.

(** C3. When both bounds are given and [minEmployees] is above
    [maxEmployees], [Company.filter] throws the BadRequestError, whatever
    the name, the database and the log: the log is returned as it was, so
    no statement has been sent, and the outcome depends on nothing the
    conditionals after the check compute. *)
Theorem company_filter_min_above_max
    (db : Db) (nm : option string) (a b : Z) (log : list Statement) :
  (b < a)%Z →
  Company.filter db
    {| Company.name := nm; Company.minEmployees := Some a; Company.maxEmployees := Some b |}
    log
  = (Throw (BadRequestError
              "Maximum employees number must be larger than minimum employees number."),
     log).
Proof.
  intros Hlt. unfold Company.filter, throw. simpl.
  by rewrite (proj2 (Z.ltb_lt b a) Hlt).
Qed.

(** The example of the specification: [filter({minEmployees:10, maxEmployees:5})]. *)
Lemma company_filter_min_above_max_witness :
  (5 < 10)%Z
  ∧ run (Company.filter db_empty
           {| Company.name := None; Company.minEmployees := Some 10%Z;
              Company.maxEmployees := Some 5%Z |})
    = (Throw (BadRequestError
                "Maximum employees number must be larger than minimum employees number."),
       []).
Proof.
  split; [lia|].
  apply (company_filter_min_above_max db_empty None 10 5 []). lia.
Defined.

(** C8. Whenever the statement a filter sends comes back without rows, the
    filter throws its NotFoundError, and whenever it comes back with rows,
    the filter returns these rows as they are; in both cases the log has
    been extended with the statement, so the outcome is decided after the
    query. For [Company.filter] the statement is sent when the check of the
    bounds passes. *)
Theorem filter_not_found_on_no_rows (db : Db) (log : list Statement) :
  (∀ q rs,
      db (Job.statement (Job.build q)) (valueArr (Job.build q)) = Return {| rows := rs |} →
      Job.filter db q log
      = (match rs with
         | [] => Throw (NotFoundError "No jobs found matching your search criteria")
         | _ :: _ => Return rs
         end,
         log ++ [(Job.statement (Job.build q), valueArr (Job.build q))]))
  ∧ (∀ q rs,
      js_gt (Company.minEmployees q) (Company.maxEmployees q) = false →
      db (Company.statement (Company.build q)) (valueArr (Company.build q))
      = Return {| rows := rs |} →
      Company.filter db q log
      = (match rs with
         | [] => Throw (NotFoundError "No company found matching your search criteria")
         | _ :: _ => Return rs
         end,
         log ++ [(Company.statement (Company.build q), valueArr (Company.build q))])).
Proof.
  split.
  - intros q rs Hdb. rewrite job_filter_unfold, Hdb. by destruct rs.
  - intros q rs Hgt Hdb. rewrite company_filter_unfold, Hdb by done. by destruct rs.
Qed.

(** A search that matches no job, as in the tests of the model, and a
    search that matches one company. *)
Lemma filter_not_found_on_no_rows_witness :
  let jq := {| Job.title := Some "name"; Job.minSalary := None; Job.hasEquity := None |} in
  let cq := {| Company.name := Some "c1"; Company.minEmployees := Some 1%Z;
               Company.maxEmployees := Some 3%Z |} in
  let c1 : Row := [("handle", JsStr "c1"); ("name", JsStr "C1"); ("numEmployees", JsNum 1)] in
  run (Job.filter db_empty jq)
  = (Throw (NotFoundError "No jobs found matching your search criteria"),
     [(Job.firstPartOfQuery +:+ " title ILIKE $1 ORDER BY title", [JsStr "%name%"])])
  ∧ run (Company.filter (db_const [c1]) cq)
    = (Return [c1],
       [(Company.firstPartOfQuery
         +:+ " name ILIKE $1 AND num_employees >= $2 AND num_employees <= $3 ORDER BY name",
         [JsStr "%c1%"; JsNum 1; JsNum 3])]).
Proof.
  intros jq cq c1. split.
  - exact (proj1 (filter_not_found_on_no_rows db_empty []) jq [] eq_refl).
  - exact (proj2 (filter_not_found_on_no_rows (db_const [c1]) []) cq [c1] eq_refl eq_refl).
Defined.

(** ** The criteria one by one *)

(** C4. With [hasEquity] true the conditional appends the fragment
    [equity > 0], in which there is no [$], and leaves [valueArr] as it is;
    with [hasEquity] false or absent it changes nothing. So the arrays of a
    query with [hasEquity] true are those of the same query without
    [hasEquity], with [equity > 0] after the other fragments, and without
    [hasEquity] true no fragment is [equity > 0]. *)
Theorem job_hasEquity_literal (t : option string) (m : option Z) (b : Builder) :
  let q h := {| Job.title := t; Job.minSalary := m; Job.hasEquity := h |} in
  Job.add_hasEquity (q (Some true)) b
  = {| valueArr := valueArr b;
       middlePartOfQueryArr := middlePartOfQueryArr b ++ ["equity > 0"] |}
  ∧ contains_dollar "equity > 0" = false
  ∧ Job.add_hasEquity (q (Some false)) b = b
  ∧ Job.add_hasEquity (q None) b = b
  ∧ valueArr (Job.build (q (Some true))) = valueArr (Job.build (q None))
  ∧ middlePartOfQueryArr (Job.build (q (Some true)))
    = middlePartOfQueryArr (Job.build (q None)) ++ ["equity > 0"]
  ∧ Job.build (q (Some false)) = Job.build (q None)
  ∧ "equity > 0" ∉ middlePartOfQueryArr (Job.build (q None)).
Proof.
  intros q. split_and!; try done.
  unfold q, Job.build, Job.add_hasEquity, Job.add_minSalary, Job.add_title. simpl.
  destruct (truthy (opt_str t)), (truthy (opt_num m)); simpl;
    rewrite ?elem_of_cons, elem_of_nil; intros H;
    repeat (destruct H as [H|H]; [discriminate H|]); done.
Qed.

(** The falsy values of a criterion: the absent one, and the empty string
    or zero. *)
Lemma falsy_opt_str (o : option string) :
  truthy (opt_str o) = false ↔ o = None ∨ o = Some EmptyString.
Proof. destruct o as [[|c s]|]; simpl; intuition congruence. Qed.

Lemma falsy_opt_num (o : option Z) :
  truthy (opt_num o) = false ↔ o = None ∨ o = Some 0%Z.
Proof.
  destruct o as [n|]; simpl; [|intuition congruence].
  rewrite negb_false_iff, Z.eqb_eq. intuition congruence.
Qed.

(** C7. A criterion given with a falsy value (the empty string for [name]
    and [title], zero for [minEmployees], [maxEmployees] and [minSalary])
    is skipped like an absent one: its conditional leaves both arrays as
    they are, and the arrays of the whole query are those of the query
    without the criterion. The statement a filter sends for it, when it
    sends one, is therefore that of the query without the criterion; the
    check of the bounds in [Company.filter] comes before and still reads
    the zero. *)
Theorem falsy_criteria_are_skipped :
  (∀ q B, truthy (opt_str (Company.name q)) = false → Company.add_name q B = B)
  ∧ (∀ q B, truthy (opt_num (Company.minEmployees q)) = false →
            Company.add_minEmployees q B = B)
  ∧ (∀ q B, truthy (opt_num (Company.maxEmployees q)) = false →
            Company.add_maxEmployees q B = B)
  ∧ (∀ q B, truthy (opt_str (Job.title q)) = false → Job.add_title q B = B)
  ∧ (∀ q B, truthy (opt_num (Job.minSalary q)) = false → Job.add_minSalary q B = B)
  ∧ truthy (JsStr EmptyString) = false
  ∧ truthy (JsNum 0) = false
  ∧ (∀ a b,
      Company.build
        {| Company.name := Some EmptyString; Company.minEmployees := a;
           Company.maxEmployees := b |}
      = Company.build
          {| Company.name := None; Company.minEmployees := a; Company.maxEmployees := b |})
  ∧ (∀ n b,
      Company.build
        {| Company.name := n; Company.minEmployees := Some 0%Z; Company.maxEmployees := b |}
      = Company.build
          {| Company.name := n; Company.minEmployees := None; Company.maxEmployees := b |})
  ∧ (∀ n a,
      Company.build
        {| Company.name := n; Company.minEmployees := a; Company.maxEmployees := Some 0%Z |}
      = Company.build
          {| Company.name := n; Company.minEmployees := a; Company.maxEmployees := None |})
  ∧ (∀ m h,
      Job.build {| Job.title := Some EmptyString; Job.minSalary := m; Job.hasEquity := h |}
      = Job.build {| Job.title := None; Job.minSalary := m; Job.hasEquity := h |})
  ∧ (∀ t h,
      Job.build {| Job.title := t; Job.minSalary := Some 0%Z; Job.hasEquity := h |}
      = Job.build {| Job.title := t; Job.minSalary := None; Job.hasEquity := h |})
  ∧ (∀ db m h,
      Job.filter db {| Job.title := Some EmptyString; Job.minSalary := m; Job.hasEquity := h |}
      = Job.filter db {| Job.title := None; Job.minSalary := m; Job.hasEquity := h |})
  ∧ (∀ db t h,
      Job.filter db {| Job.title := t; Job.minSalary := Some 0%Z; Job.hasEquity := h |}
      = Job.filter db {| Job.title := t; Job.minSalary := None; Job.hasEquity := h |})
  ∧ (∀ db a b,
      Company.filter db
        {| Company.name := Some EmptyString; Company.minEmployees := a;
           Company.maxEmployees := b |}
      = Company.filter db
          {| Company.name := None; Company.minEmployees := a; Company.maxEmployees := b |}).
Proof.
  split_and!.
  - intros q B H. unfold Company.add_name. by rewrite H.
  - intros q B H. unfold Company.add_minEmployees. by rewrite H.
  - intros q B H. unfold Company.add_maxEmployees. by rewrite H.
  - intros q B H. unfold Job.add_title. by rewrite H.
  - intros q B H. unfold Job.add_minSalary. by rewrite H.
  - done.
  - done.
  - done.
  - done.
  - done.
  - done.
  - done.
  - done.
  - done.
  - done.
Qed.

(** An empty name beside a bound, and a zero salary beside a title. *)
Lemma falsy_criteria_are_skipped_witness :
  let cq := {| Company.name := Some EmptyString; Company.minEmployees := Some 2%Z;
               Company.maxEmployees := None |} in
  let jq := {| Job.title := Some "j"; Job.minSalary := Some 0%Z; Job.hasEquity := None |} in
  (truthy (opt_str (Company.name cq)) = false
   ∧ Company.add_name cq empty_builder = empty_builder)
  ∧ (truthy (opt_num (Job.minSalary jq)) = false
     ∧ Job.add_minSalary jq (Job.add_title jq empty_builder)
       = {| valueArr := [JsStr "%j%"]; middlePartOfQueryArr := ["title ILIKE $1"] |}).
Proof.
  intros cq jq. split; (split; [reflexivity|]).
  - exact (proj1 falsy_criteria_are_skipped cq empty_builder eq_refl).
  - exact (proj1 (proj2 (proj2 (proj2 (proj2 falsy_criteria_are_skipped))))
             jq (Job.add_title jq empty_builder) eq_refl).
Defined.

(** The position of a fragment among at most three, found by trying. *)
Ltac solve_position :=
  first [ exists 1; split_and!; [lia | reflexivity | reflexivity]
        | exists 2; split_and!; [lia | reflexivity | reflexivity]
        | exists 3; split_and!; [lia | reflexivity | reflexivity] ].

Lemma truthy_nonzero (n : Z) : n ≠ 0%Z → truthy (JsNum n) = true.
Proof. intros Hn. simpl. by rewrite negb_true_iff, Z.eqb_neq. Qed.

Lemma truthy_nonempty (s : string) : s ≠ EmptyString → truthy (JsStr s) = true.
Proof. by destruct s. Qed.

(** C6, amended. For every non-zero [minSalary], whatever the other
    criteria, [Job.filter] has the fragment [salary > $k], with the strict
    comparison, at some position [k] (from 1) of its fragments, and
    [minSalary] itself at position [k] of [valueArr]; alone, the criterion
    gives the fragment [salary > $1] and the value at position 1. For every
    non-zero bound of [Company.filter] the fragment is
    [num_employees >= $k] for [minEmployees] and [num_employees <= $k] for
    [maxEmployees], with the bound at position [k] of [valueArr]. *)
Theorem minSalary_strict_bounds_inclusive (n : Z) :
  n ≠ 0%Z →
  (∀ t h,
      let b := Job.build {| Job.title := t; Job.minSalary := Some n; Job.hasEquity := h |} in
      ∃ k, 1 ≤ k
           ∧ middlePartOfQueryArr b !! (k - 1) = Some ("salary > " +:+ placeholder k)
           ∧ valueArr b !! (k - 1) = Some (JsNum n))
  ∧ Job.build {| Job.title := None; Job.minSalary := Some n; Job.hasEquity := None |}
    = {| valueArr := [JsNum n]; middlePartOfQueryArr := ["salary > $1"] |}
  ∧ (∀ nm mx,
      let b := Company.build {| Company.name := nm; Company.minEmployees := Some n;
                                Company.maxEmployees := mx |} in
      ∃ k, 1 ≤ k
           ∧ middlePartOfQueryArr b !! (k - 1) = Some ("num_employees >= " +:+ placeholder k)
           ∧ valueArr b !! (k - 1) = Some (JsNum n))
  ∧ (∀ nm mn,
      let b := Company.build {| Company.name := nm; Company.minEmployees := mn;
                                Company.maxEmployees := Some n |} in
      ∃ k, 1 ≤ k
           ∧ middlePartOfQueryArr b !! (k - 1) = Some ("num_employees <= " +:+ placeholder k)
           ∧ valueArr b !! (k - 1) = Some (JsNum n)).
Proof.
  intros Hn. pose proof (truthy_nonzero n Hn) as Ht. split_and!.
  - intros t h b. unfold b, Job.build, Job.add_hasEquity, Job.add_minSalary, Job.add_title.
    cbn [Job.title Job.minSalary Job.hasEquity opt_num from_option]. rewrite Ht.
    destruct (truthy (opt_str t)), (is_true_strict (opt_bool h));
      solve_position.
  - unfold Job.build, Job.add_hasEquity, Job.add_minSalary, Job.add_title.
    cbn [Job.title Job.minSalary Job.hasEquity opt_num from_option]. by rewrite Ht.
  - intros nm mx b. unfold b, Company.build, Company.add_maxEmployees,
      Company.add_minEmployees, Company.add_name.
    cbn [Company.name Company.minEmployees Company.maxEmployees opt_num from_option].
    rewrite Ht.
    destruct (truthy (opt_str nm)), (truthy (from_option JsNum JsUndefined mx));
      solve_position.
  - intros nm mn b. unfold b, Company.build, Company.add_maxEmployees,
      Company.add_minEmployees, Company.add_name.
    cbn [Company.name Company.minEmployees Company.maxEmployees opt_num from_option].
    rewrite Ht.
    destruct (truthy (opt_str nm)), (truthy (from_option JsNum JsUndefined mn));
      solve_position.
Qed.

(** The example of the specification: [filter({minSalary:40000})]. *)
Lemma minSalary_strict_bounds_inclusive_witness :
  40000%Z ≠ 0%Z
  ∧ Job.build {| Job.title := None; Job.minSalary := Some 40000%Z; Job.hasEquity := None |}
    = {| valueArr := [JsNum 40000]; middlePartOfQueryArr := ["salary > $1"] |}.
Proof.
  split; [lia|].
  apply (minSalary_strict_bounds_inclusive 40000). lia.
Defined.

(** C6, as stated, fails: a [minSalary] of zero is supplied, and the filter
    has no fragment and no value for it. *)
Lemma minSalary_zero_no_predicate :
  let q := {| Job.title := None; Job.minSalary := Some 0%Z; Job.hasEquity := None |} in
  Job.build q = empty_builder
  ∧ (∀ k, ("salary > " +:+ placeholder k) ∉ middlePartOfQueryArr (Job.build q))
  ∧ (JsNum 0 ∉ valueArr (Job.build q))
  ∧ run (Job.filter db_empty q)
    = (Throw (NotFoundError "No jobs found matching your search criteria"),
       [(Job.firstPartOfQuery +:+ "  ORDER BY title", [])]).
Proof.
  intros q. split_and!; [done| | |done].
  - intros k. apply not_elem_of_nil.
  - apply not_elem_of_nil.
Qed.

(** C10. For every non-empty [name], whatever the bounds,
    [Company.filter] binds the name between two [%] at position 1 of
    [valueArr] and its first fragment is [name ILIKE $1]; the fragments and
    the text of the statement are the same for every other non-empty name,
    so the name is in the values only; and when the check of the bounds
    passes, that text and these values are what is sent to the database.
    The same holds for the [title] of [Job.filter], with the fragment
    [title ILIKE $1]. *)
Theorem name_bound_between_wildcards (s : string) :
  s ≠ EmptyString →
  (∀ a b,
      let q := {| Company.name := Some s; Company.minEmployees := a;
                  Company.maxEmployees := b |} in
      valueArr (Company.build q) !! 0 = Some (JsStr ("%" +:+ s +:+ "%"))
      ∧ middlePartOfQueryArr (Company.build q) !! 0 = Some ("name ILIKE " +:+ placeholder 1)
      ∧ (∀ s', s' ≠ EmptyString →
           let q' := {| Company.name := Some s'; Company.minEmployees := a;
                        Company.maxEmployees := b |} in
           middlePartOfQueryArr (Company.build q) = middlePartOfQueryArr (Company.build q')
           ∧ Company.statement (Company.build q) = Company.statement (Company.build q'))
      ∧ (∀ db log, js_gt a b = false →
           (Company.filter db q log).2
           = log ++ [(Company.statement (Company.build q), valueArr (Company.build q))]))
  ∧ (∀ m h,
      let q := {| Job.title := Some s; Job.minSalary := m; Job.hasEquity := h |} in
      valueArr (Job.build q) !! 0 = Some (JsStr ("%" +:+ s +:+ "%"))
      ∧ middlePartOfQueryArr (Job.build q) !! 0 = Some ("title ILIKE " +:+ placeholder 1)
      ∧ (∀ s', s' ≠ EmptyString →
           let q' := {| Job.title := Some s'; Job.minSalary := m; Job.hasEquity := h |} in
           middlePartOfQueryArr (Job.build q) = middlePartOfQueryArr (Job.build q')
           ∧ Job.statement (Job.build q) = Job.statement (Job.build q'))
      ∧ (∀ db log,
           (Job.filter db q log).2
           = log ++ [(Job.statement (Job.build q), valueArr (Job.build q))])).
Proof.
  intros Hs. pose proof (truthy_nonempty s Hs) as Ht. split.
  - intros a b q.
    assert (Hmid : ∀ r, r ≠ EmptyString →
              middlePartOfQueryArr
                (Company.build {| Company.name := Some r; Company.minEmployees := a;
                                  Company.maxEmployees := b |})
              = middlePartOfQueryArr
                  (Company.build {| Company.name := Some "x"; Company.minEmployees := a;
                                    Company.maxEmployees := b |})).
    { intros r Hr. pose proof (truthy_nonempty r Hr) as Hr'.
      unfold Company.build, Company.add_maxEmployees, Company.add_minEmployees,
        Company.add_name.
      cbn [Company.name Company.minEmployees Company.maxEmployees opt_str from_option
             ToString].
      rewrite Hr'. cbn [truthy].
      by destruct (truthy (opt_num a)), (truthy (opt_num b)). }
    split_and!.
    + unfold q, Company.build, Company.add_maxEmployees, Company.add_minEmployees,
        Company.add_name.
      cbn [Company.name Company.minEmployees Company.maxEmployees opt_str from_option
             ToString].
      rewrite Ht. by destruct (truthy (opt_num a)), (truthy (opt_num b)).
    + unfold q. rewrite (Hmid s Hs).
      unfold Company.build, Company.add_maxEmployees, Company.add_minEmployees,
        Company.add_name.
      cbn [Company.name Company.minEmployees Company.maxEmployees opt_str from_option
             ToString truthy].
      by destruct (truthy (opt_num a)), (truthy (opt_num b)).
    + intros s' Hs' q'. unfold Company.statement, q, q'.
      by rewrite (Hmid s Hs), (Hmid s' Hs').
    + intros db log Hgt. rewrite company_filter_unfold by done.
      by destruct (db _ _).
  - intros m h q.
    assert (Hmid : ∀ r, r ≠ EmptyString →
              middlePartOfQueryArr
                (Job.build {| Job.title := Some r; Job.minSalary := m; Job.hasEquity := h |})
              = middlePartOfQueryArr
                  (Job.build {| Job.title := Some "x"; Job.minSalary := m;
                                Job.hasEquity := h |})).
    { intros r Hr. pose proof (truthy_nonempty r Hr) as Hr'.
      unfold Job.build, Job.add_hasEquity, Job.add_minSalary, Job.add_title.
      cbn [Job.title Job.minSalary Job.hasEquity opt_str from_option ToString].
      rewrite Hr'. cbn [truthy].
      by destruct (truthy (opt_num m)), (is_true_strict (opt_bool h)). }
    split_and!.
    + unfold q, Job.build, Job.add_hasEquity, Job.add_minSalary, Job.add_title.
      cbn [Job.title Job.minSalary Job.hasEquity opt_str from_option ToString].
      rewrite Ht. by destruct (truthy (opt_num m)), (is_true_strict (opt_bool h)).
    + unfold q. rewrite (Hmid s Hs).
      unfold Job.build, Job.add_hasEquity, Job.add_minSalary, Job.add_title.
      cbn [Job.title Job.minSalary Job.hasEquity opt_str from_option ToString truthy].
      by destruct (truthy (opt_num m)), (is_true_strict (opt_bool h)).
    + intros s' Hs' q'. unfold Job.statement, q, q'.
      by rewrite (Hmid s Hs), (Hmid s' Hs').
    + intros db log. rewrite job_filter_unfold. by destruct (db _ _).
Qed.

(** The example of the specification: [filter({name:"tech"})]. *)
Lemma name_bound_between_wildcards_witness :
  let q := {| Company.name := Some "tech"; Company.minEmployees := None;
              Company.maxEmployees := None |} in
  "tech" ≠ EmptyString
  ∧ valueArr (Company.build q) !! 0 = Some (JsStr "%tech%")
  ∧ middlePartOfQueryArr (Company.build q) !! 0 = Some "name ILIKE $1"
  ∧ (run (Company.filter db_empty q)).2
    = [(Company.firstPartOfQuery +:+ " name ILIKE $1 ORDER BY name", [JsStr "%tech%"])].
Proof.
  intros q.
  assert (Hne : "tech" ≠ EmptyString) by discriminate.
  split; [exact Hne|].
  destruct (proj1 (name_bound_between_wildcards "tech" Hne) None None)
    as (Hval & Hfrag & _ & Hsent).
  split_and!; [exact Hval | exact Hfrag | exact (Hsent db_empty [] eq_refl)].
Defined.

(** ** The query without criteria *)

(** C2, as stated, fails: a call without criteria sends a text whose WHERE
    is followed by ORDER BY at once. *)
Lemma filter_without_criteria_dangling :
  let cq := {| Company.name := None; Company.minEmployees := None;
               Company.maxEmployees := None |} in
  let jq := {| Job.title := None; Job.minSalary := None; Job.hasEquity := None |} in
  (run (Company.filter db_empty cq)).2
  = [(Company.firstPartOfQuery +:+ "  ORDER BY name", [])]
  ∧ dangling_where (Company.firstPartOfQuery +:+ "  ORDER BY name") = true
  ∧ (run (Job.filter db_empty jq)).2 = [(Job.firstPartOfQuery +:+ "  ORDER BY title", [])]
  ∧ dangling_where (Job.firstPartOfQuery +:+ "  ORDER BY title") = true.
Proof. intros cq jq. split_and!; vm_compute; reflexivity. Qed.

(** C2, amended. The WHERE of the text [Company.filter] composes is left
    without condition exactly when none of [name], [minEmployees],
    [maxEmployees] is truthy, and that of [Job.filter] exactly when neither
    [title] nor [minSalary] is truthy and [hasEquity] is not [true]; the
    text is then the first part, two blanks and the last part: the filters
    have no guard for the call without criteria. *)
Theorem where_dangling_iff_no_criteria :
  (∀ q,
      dangling_where (Company.statement (Company.build q))
      = negb (truthy (opt_str (Company.name q))
              || truthy (opt_num (Company.minEmployees q))
              || truthy (opt_num (Company.maxEmployees q))))
  ∧ (∀ q,
      dangling_where (Job.statement (Job.build q))
      = negb (truthy (opt_str (Job.title q))
              || truthy (opt_num (Job.minSalary q))
              || is_true_strict (opt_bool (Job.hasEquity q))))
  ∧ (∀ q,
      truthy (opt_str (Company.name q))
      || truthy (opt_num (Company.minEmployees q))
      || truthy (opt_num (Company.maxEmployees q)) = false →
      Company.statement (Company.build q)
      = Company.firstPartOfQuery +:+ "  " +:+ Company.lastPartOfQuery)
  ∧ (∀ q,
      truthy (opt_str (Job.title q))
      || truthy (opt_num (Job.minSalary q))
      || is_true_strict (opt_bool (Job.hasEquity q)) = false →
      Job.statement (Job.build q) = Job.firstPartOfQuery +:+ "  " +:+ Job.lastPartOfQuery).
Proof.
  split_and!.
  - intros q. unfold Company.build, Company.add_maxEmployees, Company.add_minEmployees,
      Company.add_name.
    destruct (truthy (opt_str _)), (truthy (opt_num (Company.minEmployees q))),
      (truthy (opt_num (Company.maxEmployees q))); vm_compute; reflexivity.
  - intros q. unfold Job.build, Job.add_hasEquity, Job.add_minSalary, Job.add_title.
    destruct (truthy (opt_str _)), (truthy (opt_num _)), (is_true_strict _);
      vm_compute; reflexivity.
  - intros q. unfold Company.build, Company.add_maxEmployees, Company.add_minEmployees,
      Company.add_name.
    destruct (truthy (opt_str _)), (truthy (opt_num (Company.minEmployees q))),
      (truthy (opt_num (Company.maxEmployees q))); done.
  - intros q. unfold Job.build, Job.add_hasEquity, Job.add_minSalary, Job.add_title.
    destruct (truthy (opt_str _)), (truthy (opt_num _)), (is_true_strict _); done.
Qed.

(** A company query without criteria, and a job query whose only criterion
    is a false [hasEquity]. *)
Lemma where_dangling_iff_no_criteria_witness :
  let cq := {| Company.name := None; Company.minEmployees := None;
               Company.maxEmployees := None |} in
  let jq := {| Job.title := None; Job.minSalary := None; Job.hasEquity := Some false |} in
  (truthy (opt_str (Company.name cq))
   || truthy (opt_num (Company.minEmployees cq))
   || truthy (opt_num (Company.maxEmployees cq)) = false
   ∧ Company.statement (Company.build cq)
     = Company.firstPartOfQuery +:+ "  ORDER BY name")
  ∧ (truthy (opt_str (Job.title jq))
     || truthy (opt_num (Job.minSalary jq))
     || is_true_strict (opt_bool (Job.hasEquity jq)) = false
     ∧ Job.statement (Job.build jq) = Job.firstPartOfQuery +:+ "  ORDER BY title").
Proof.
  intros cq jq.
  destruct where_dangling_iff_no_criteria as (_ & _ & Hc & Hj).
  split; (split; [reflexivity|]).
  - exact (Hc cq eq_refl).
  - exact (Hj jq eq_refl).
Defined.

(** ** The calls of the repository's tests *)

(** [sql.test.js], one item. *)
Example sqlForPartialUpdate_1_item :
  Sql.sqlForPartialUpdate [("firstName", JsStr "test")] {[ "firstName" := "first_name" ]}
  = Return {| Sql.setCols := dq +:+ "first_name" +:+ dq +:+ "=$1";
              Sql.values := [JsStr "test"] |}.
Proof. vm_compute. reflexivity. Qed.

(** [Job.update] passes an empty map: every key names its own column. *)
Example sqlForPartialUpdate_job_update :
  Sql.sqlForPartialUpdate [("title", JsStr "New"); ("salary", JsNum 500)] ∅
  = Return {| Sql.setCols := dq +:+ "title" +:+ dq +:+ "=$1, "
                             +:+ dq +:+ "salary" +:+ dq +:+ "=$2";
              Sql.values := [JsStr "New"; JsNum 500] |}.
Proof. vm_compute. reflexivity. Qed.

(** [job.test.js], filter by all: the three criteria at once. *)
Example job_filter_by_all :
  let q := {| Job.title := Some "j"; Job.minSalary := Some 40000%Z;
              Job.hasEquity := Some true |} in
  (run (Job.filter db_empty q)).2
  = [(Job.firstPartOfQuery
      +:+ " title ILIKE $1 AND salary > $2 AND equity > 0 ORDER BY title",
      [JsStr "%j%"; JsNum 40000])].
Proof. vm_compute. reflexivity. Qed.

(** * The rest of the models, the middleware and the routes *)

(** ** [update] *)

Lemma snoc_ne {A} (l : list A) (x : A) : l ++ [x] ≠ l.
Proof.
  intros H. apply (f_equal length) in H. rewrite length_app in H. simpl in H. lia.
Qed.

Lemma placeholder_not_in_seq (n : nat) : placeholder (n + 1) ∉ (placeholder <$> seq 1 n).
Proof.
  intros (k & Hk & Hin)%list_elem_of_fmap.
  apply placeholder_inj in Hk as <-. apply elem_of_seq in Hin. lia.
Qed.

(** What [Company.update] does on data with a key, on any log. *)
Lemma company_update_cons db id kv P log :
  let data := kv :: P in
  let text :=
    Company.update_statement (join ", " (Sql.cols data.*1 Company.jsToSql))
      (placeholder (length data + 1)) in
  Company.update db id data log
  = (match db text (data.*2 ++ [id]) with
     | Return res =>
         match head (rows res) with
         | None => Throw (NotFoundError ("No company: " +:+ ToString id))
         | Some company => Return company
         end
     | Throw e => Throw e
     end,
     log ++ [(text, data.*2 ++ [id])]).
Proof.
  intros data text. unfold Company.update, bind, lift, db_query, throw, ret.
  unfold data at 1. rewrite sqlForPartialUpdate_cons.
  cbn [Sql.setCols Sql.values]. unfold Sql.Object_values, Sql.Object_keys.
  fold data. rewrite length_fmap. fold (placeholder (length data + 1)). fold text.
  destruct (db _ _) as [res|e]; [|done]. by destruct (head (rows res)).
Qed.

(** What [Job.update] does on data with a key, on any log. *)
Lemma job_update_cons db id kv P log :
  let data := kv :: P in
  let text :=
    Job.update_statement (join ", " (Sql.cols data.*1 ∅)) (placeholder (length data + 1)) in
  Job.update db id data log
  = (match db text (data.*2 ++ [id]) with
     | Return res =>
         match head (rows res) with
         | None => Throw (NotFoundError ("No job with id: " +:+ ToString id))
         | Some job => Return job
         end
     | Throw e => Throw e
     end,
     log ++ [(text, data.*2 ++ [id])]).
Proof.
  intros data text. unfold Job.update, bind, lift, db_query, throw, ret.
  unfold data at 1. rewrite sqlForPartialUpdate_cons.
  cbn [Sql.setCols Sql.values]. unfold Sql.Object_values, Sql.Object_keys.
  fold data. rewrite length_fmap. fold (placeholder (length data + 1)). fold text.
  destruct (db _ _) as [res|e]; [|done]. by destruct (head (rows res)).
Qed.

Lemma company_update_log_iff db id data log :
  (Company.update db id data log).2 = log ↔ data = [].
Proof.
  destruct data as [|kv P]; [done|]. rewrite company_update_cons. cbn [snd].
  split; [|done]. intros H. by apply snoc_ne in H.
Qed.

Lemma job_update_log_iff db id data log :
  (Job.update db id data log).2 = log ↔ data = [].
Proof.
  destruct data as [|kv P]; [done|]. rewrite job_update_cons. cbn [snd].
  split; [|done]. intros H. by apply snoc_ne in H.
Qed.

(** X1. [Company.update] and [Job.update] on data without keys throw the
    BadRequestError [No data] and send nothing; and they leave the log as
    it was only then: data with a key always sends a statement. *)
Theorem update_sends_nothing_iff_no_data (db : Db) (id : JsVal) (log : list Statement) :
  Company.update db id [] log = (Throw (BadRequestError "No data"), log)
  ∧ Job.update db id [] log = (Throw (BadRequestError "No data"), log)
  ∧ (∀ data, (Company.update db id data log).2 = log ↔ data = [])
  ∧ (∀ data, (Job.update db id data log).2 = log ↔ data = []).
Proof.
  split_and!; [done|done| |].
  - intros data. apply company_update_log_iff.
  - intros data. apply job_update_log_iff.
Qed.

(** X2. For data with [n] keys ([n] at least 1), [Company.update] and
    [Job.update] send one statement: the UPDATE whose SET list is the
    [setCols] of the data and whose WHERE compares with the placeholder
    [$(n+1)]. Its values are the values of the data in order, then the
    handle or id: so the placeholder of the WHERE refers to the handle or
    id, it is none of the placeholders [$1] ... [$n] of the SET list, and
    the values of the SET list are where [sqlForPartialUpdate] put them. *)
Theorem update_binds_id_after_values
    (db : Db) (id : JsVal) (kv : string * JsVal) (P : list (string * JsVal))
    (log : list Statement) :
  let data := kv :: P in
  let n := length data in
  (Company.update db id data log).2
  = log ++ [(Company.update_statement (join ", " (Sql.cols data.*1 Company.jsToSql))
               (placeholder (n + 1)),
             data.*2 ++ [id])]
  ∧ (Job.update db id data log).2
    = log ++ [(Job.update_statement (join ", " (Sql.cols data.*1 ∅)) (placeholder (n + 1)),
               data.*2 ++ [id])]
  ∧ length (data.*2 ++ [id]) = n + 1
  ∧ (data.*2 ++ [id]) !! (n + 1 - 1) = Some id
  ∧ (placeholder (n + 1) ∉ placeholder <$> seq 1 n)
  ∧ (∀ i k v, data !! i = Some (k, v) → (data.*2 ++ [id]) !! i = Some v).
Proof.
  intros data n. subst n data. split_and!.
  - by rewrite company_update_cons.
  - by rewrite job_update_cons.
  - rewrite length_app, length_fmap. done.
  - set (data := kv :: P).
    replace (length data + 1 - 1) with (length data.*2) by (rewrite length_fmap; lia).
    by rewrite list_lookup_middle.
  - apply placeholder_not_in_seq.
  - intros i k v Hi. apply lookup_app_l_Some. by rewrite list_lookup_fmap, Hi.
Qed.

(** The example of the tests of the model: two fields of company [c1]. *)
Lemma update_binds_id_after_values_witness :
  let data := [("name", JsStr "New"); ("numEmployees", JsNum 10)] in
  data !! 1 = Some ("numEmployees", JsNum 10)
  ∧ (data.*2 ++ [JsStr "c1"]) !! 1 = Some (JsNum 10)
  ∧ (run (Company.update db_empty (JsStr "c1") data)).2
    = [(Company.update_statement
          (dq +:+ "name" +:+ dq +:+ "=$1, " +:+ dq +:+ "num_employees" +:+ dq +:+ "=$2")
          "$3",
        [JsStr "New"; JsNum 10; JsStr "c1"])].
Proof.
  intros data.
  destruct (update_binds_id_after_values db_empty (JsStr "c1")
              ("name", JsStr "New") [("numEmployees", JsNum 10)] [])
    as (Hsent & _ & _ & _ & _ & Hval).
  split_and!; [reflexivity | exact (Hval 1 "numEmployees" (JsNum 10) eq_refl) | exact Hsent].
Defined.

(** The two entries of the map of [Company.update], for any key. *)
Lemma company_jsToSql_lookup (k : string) :
  Company.jsToSql !! k
  = if decide (k = "numEmployees") then Some "num_employees"
    else if decide (k = "logoUrl") then Some "logo_url"
    else None.
Proof.
  unfold Company.jsToSql.
  destruct (decide (k = "numEmployees")) as [->|Hn]; [done|].
  rewrite lookup_insert_ne by done.
  destruct (decide (k = "logoUrl")) as [->|Hl]; [by rewrite lookup_singleton_eq|].
  by rewrite lookup_singleton_ne.
Qed.

(** X3. [Company.update] writes the key [numEmployees] to the column
    [num_employees] and the key [logoUrl] to the column [logo_url];
    [Job.update] renames no key. Every other key is written to the column
    of its own name, unless it names a member every object inherits from
    [Object.prototype] ([constructor], [toString], ...): the column is then
    the text that member prints as. In both, the fragment of the key at
    position [i] (from 0) of the data assigns the placeholder [$(i+1)] to
    that column. *)
Theorem update_column_names (k : string) :
  Sql.column Company.jsToSql k
  = (if decide (k = "numEmployees") then "num_employees"
     else if decide (k = "logoUrl") then "logo_url"
     else default k (inherited k))
  ∧ Sql.column ∅ k = default k (inherited k)
  ∧ (inherited k = None → k ≠ "numEmployees" → k ≠ "logoUrl" →
     Sql.column Company.jsToSql k = k)
  ∧ (inherited k = None → Sql.column ∅ k = k)
  ∧ (∀ (data : list (string * JsVal)) i v,
      data !! i = Some (k, v) →
      Sql.cols data.*1 Company.jsToSql !! i
      = Some (dq +:+ Sql.column Company.jsToSql k +:+ dq +:+ "=" +:+ placeholder (i + 1))
      ∧ Sql.cols data.*1 ∅ !! i
        = Some (dq +:+ Sql.column ∅ k +:+ dq +:+ "=" +:+ placeholder (i + 1))).
Proof.
  assert (Hempty : Sql.column ∅ k = default k (inherited k)).
  { rewrite column_physical_name. unfold physical_name. rewrite lookup_empty.
    by destruct (inherited k). }
  assert (Hcompany :
            Sql.column Company.jsToSql k
            = (if decide (k = "numEmployees") then "num_employees"
               else if decide (k = "logoUrl") then "logo_url"
               else default k (inherited k))).
  { rewrite column_physical_name. unfold physical_name.
    rewrite company_jsToSql_lookup. repeat case_decide; [done|done|].
    by destruct (inherited k). }
  split_and!; [done|done| | |].
  - intros Hk Hn Hl. rewrite Hcompany, Hk. by repeat case_decide.
  - intros Hk. by rewrite Hempty, Hk.
  - intros data i v Hi. rewrite !cols_lookup.
    fold (Sql.Object_keys data). by rewrite (keys_lookup _ _ _ _ Hi).
Qed.

(** A company update with a renamed key and a key that keeps its name; a
    key that names an inherited member. *)
Lemma update_column_names_witness :
  let data := [("logoUrl", JsStr "/logos/c1.png"); ("name", JsStr "C1")] in
  (data !! 0 = Some ("logoUrl", JsStr "/logos/c1.png")
   ∧ Sql.cols data.*1 Company.jsToSql !! 0 = Some (dq +:+ "logo_url" +:+ dq +:+ "=$1")
   ∧ Sql.cols data.*1 ∅ !! 0 = Some (dq +:+ "logoUrl" +:+ dq +:+ "=$1"))
  ∧ (inherited "name" = None ∧ "name" ≠ "numEmployees" ∧ "name" ≠ "logoUrl"
     ∧ Sql.column Company.jsToSql "name" = "name"
     ∧ Sql.column ∅ "name" = "name")
  ∧ Sql.column ∅ "constructor" = "function Object() { [native code] }".
Proof.
  intros data.
  assert (Hn1 : "name" ≠ "numEmployees") by discriminate.
  assert (Hn2 : "name" ≠ "logoUrl") by discriminate.
  split; [|split].
  - split; [reflexivity|].
    exact (proj2 (proj2 (proj2 (proj2 (update_column_names "logoUrl"))))
             data 0 (JsStr "/logos/c1.png") eq_refl).
  - split; [reflexivity|]. split; [exact Hn1|]. split; [exact Hn2|]. split.
    + exact (proj1 (proj2 (proj2 (update_column_names "name"))) eq_refl Hn1 Hn2).
    + exact (proj1 (proj2 (proj2 (proj2 (update_column_names "name")))) eq_refl).
  - exact (proj1 (proj2 (update_column_names "constructor"))).
Defined.

(** ** [get], [remove] and the outcome of [update] *)

(** X4. [Job.get], [Job.remove], [Company.remove], [Job.update] and
    [Company.update] decide on the first row of the answer to their one
    statement: without a row they throw the NotFoundError that names the id
    or handle, with rows [get] and [update] return the first one and
    [remove] returns nothing; in each case the statement has been sent,
    with the id or handle as its last value. *)
Theorem first_row_or_not_found (db : Db) (id : JsVal) (log : list Statement) :
  (∀ rs,
      db Job.get_statement [id] = Return {| rows := rs |} →
      Job.get db id log
      = (match rs with
         | [] => Throw (NotFoundError ("No job with id: " +:+ ToString id))
         | job :: _ => Return job
         end,
         log ++ [(Job.get_statement, [id])]))
  ∧ (∀ rs,
      db Job.remove_statement [id] = Return {| rows := rs |} →
      Job.remove db id log
      = (match rs with
         | [] => Throw (NotFoundError ("No job with id: " +:+ ToString id))
         | _ :: _ => Return ()
         end,
         log ++ [(Job.remove_statement, [id])]))
  ∧ (∀ rs,
      db Company.remove_statement [id] = Return {| rows := rs |} →
      Company.remove db id log
      = (match rs with
         | [] => Throw (NotFoundError ("No company: " +:+ ToString id))
         | _ :: _ => Return ()
         end,
         log ++ [(Company.remove_statement, [id])]))
  ∧ (∀ kv P rs,
      let data := kv :: P in
      let text :=
        Job.update_statement (join ", " (Sql.cols data.*1 ∅))
          (placeholder (length data + 1)) in
      db text (data.*2 ++ [id]) = Return {| rows := rs |} →
      Job.update db id data log
      = (match rs with
         | [] => Throw (NotFoundError ("No job with id: " +:+ ToString id))
         | job :: _ => Return job
         end,
         log ++ [(text, data.*2 ++ [id])]))
  ∧ (∀ kv P rs,
      let data := kv :: P in
      let text :=
        Company.update_statement (join ", " (Sql.cols data.*1 Company.jsToSql))
          (placeholder (length data + 1)) in
      db text (data.*2 ++ [id]) = Return {| rows := rs |} →
      Company.update db id data log
      = (match rs with
         | [] => Throw (NotFoundError ("No company: " +:+ ToString id))
         | company :: _ => Return company
         end,
         log ++ [(text, data.*2 ++ [id])])).
Proof.
  split_and!.
  - intros rs Hdb. unfold Job.get, bind, db_query, throw, ret. rewrite Hdb. by destruct rs.
  - intros rs Hdb. unfold Job.remove, bind, db_query, throw, ret. rewrite Hdb.
    by destruct rs.
  - intros rs Hdb. unfold Company.remove, bind, db_query, throw, ret. rewrite Hdb.
    by destruct rs.
  - intros kv P rs data text Hdb. subst data text.
    rewrite job_update_cons. cbv zeta. rewrite Hdb. by destruct rs.
  - intros kv P rs data text Hdb. subst data text.
    rewrite company_update_cons. cbv zeta. rewrite Hdb. by destruct rs.
Qed.

(** A job that is not there, with a numeric id, and a company that is. *)
Lemma first_row_or_not_found_witness :
  let c1 : Row := [("handle", JsStr "c1")] in
  run (Job.get db_empty (JsNum 0))
  = (Throw (NotFoundError "No job with id: 0"), [(Job.get_statement, [JsNum 0])])
  ∧ run (Company.remove (db_const [c1]) (JsStr "c1"))
    = (Return (), [(Company.remove_statement, [JsStr "c1"])]).
Proof.
  intros c1. split.
  - exact (proj1 (first_row_or_not_found db_empty (JsNum 0) []) [] eq_refl).
  - exact (proj1 (proj2 (proj2 (first_row_or_not_found (db_const [c1]) (JsStr "c1") [])))
             [c1] eq_refl).
Defined.

(** ** [create] *)

(** X5. [Company.create] first asks whether the handle is taken. When the
    answer has a row, it throws the BadRequestError that names the handle
    and the INSERT is not sent; when the check fails, so does [create],
    without INSERT; when the answer has no row, the INSERT is sent after
    the check, with the handle, name, description, number of employees and
    logo of the data as values 1 to 5, and [create] returns the first row
    of its answer. *)
Theorem company_create_checks_duplicate (db : Db) (data : Row) (log : list Statement) :
  let handle := obj_get data "handle" in
  let vals :=
    [handle; obj_get data "name"; obj_get data "description";
     obj_get data "numEmployees"; obj_get data "logoUrl"] in
  (∀ r rs,
      db Company.create_check_statement [handle] = Return {| rows := r :: rs |} →
      Company.create db data log
      = (Throw (BadRequestError ("Duplicate company: " +:+ ToString handle)),
         log ++ [(Company.create_check_statement, [handle])]))
  ∧ (∀ e,
      db Company.create_check_statement [handle] = Throw e →
      Company.create db data log
      = (Throw e, log ++ [(Company.create_check_statement, [handle])]))
  ∧ (db Company.create_check_statement [handle] = Return {| rows := [] |} →
     Company.create db data log
     = (match db Company.create_insert_statement vals with
        | Return res => Return (head (rows res))
        | Throw e => Throw e
        end,
        log ++ [(Company.create_check_statement, [handle]);
                (Company.create_insert_statement, vals)])).
Proof.
  intros handle vals. unfold Company.create, bind, db_query, throw, ret.
  fold handle. split_and!.
  - intros r rs Hdb. by rewrite Hdb.
  - intros e Hdb. by rewrite Hdb.
  - intros Hdb. rewrite Hdb. cbn [rows head]. fold vals.
    rewrite <- (assoc_L (++)). by destruct (db _ vals).
Qed.

(** The company [new] beside an existing [c1]: the check on [c1] finds a
    row, the check on [new] none. *)
Lemma company_create_checks_duplicate_witness :
  let c1 : Row := [("handle", JsStr "c1")] in
  let new : Row := [("handle", JsStr "new"); ("name", JsStr "New");
                    ("description", JsStr "New Description");
                    ("numEmployees", JsNum 1); ("logoUrl", JsStr "http://new.img")] in
  run (Company.create (db_const [c1]) c1)
  = (Throw (BadRequestError "Duplicate company: c1"),
     [(Company.create_check_statement, [JsStr "c1"])])
  ∧ run (Company.create (db_table [(Company.create_insert_statement, [new])]) new)
    = (Return (Some new),
       [(Company.create_check_statement, [JsStr "new"]);
        (Company.create_insert_statement,
         [JsStr "new"; JsStr "New"; JsStr "New Description"; JsNum 1;
          JsStr "http://new.img"])]).
Proof.
  intros c1 new. split.
  - exact (proj1 (company_create_checks_duplicate (db_const [c1]) c1 []) c1 [] eq_refl).
  - exact (proj2 (proj2 (company_create_checks_duplicate
                           (db_table [(Company.create_insert_statement, [new])]) new []))
             eq_refl).
Defined.

(** X6. [Job.create] first asks whether the company of the job exists.
    When the answer has no row, it throws the BadRequestError that names
    the handle and the INSERT is not sent; when the check fails, so does
    [create], without INSERT; when the answer has a row, the INSERT is sent
    after the check, with the title, salary, equity and company handle of
    the data as values 1 to 4, and [create] returns the first row of its
    answer. *)
Theorem job_create_checks_company (db : Db) (data : Row) (log : list Statement) :
  let companyHandle := obj_get data "companyHandle" in
  let vals :=
    [obj_get data "title"; obj_get data "salary"; obj_get data "equity"; companyHandle] in
  (db Job.create_check_statement [companyHandle] = Return {| rows := [] |} →
   Job.create db data log
   = (Throw (BadRequestError ("No company with handle: " +:+ ToString companyHandle)),
      log ++ [(Job.create_check_statement, [companyHandle])]))
  ∧ (∀ e,
      db Job.create_check_statement [companyHandle] = Throw e →
      Job.create db data log
      = (Throw e, log ++ [(Job.create_check_statement, [companyHandle])]))
  ∧ (∀ r rs,
      db Job.create_check_statement [companyHandle] = Return {| rows := r :: rs |} →
      Job.create db data log
      = (match db Job.create_insert_statement vals with
         | Return res => Return (head (rows res))
         | Throw e => Throw e
         end,
         log ++ [(Job.create_check_statement, [companyHandle]);
                 (Job.create_insert_statement, vals)])).
Proof.
  intros companyHandle vals. unfold Job.create, bind, db_query, throw, ret.
  fold companyHandle. split_and!.
  - intros Hdb. by rewrite Hdb.
  - intros e Hdb. by rewrite Hdb.
  - intros r rs Hdb. rewrite Hdb. cbn [rows length Nat.eqb]. fold vals.
    rewrite <- (assoc_L (++)). by destruct (db _ vals).
Qed.

(** A job for a company that does not exist, as in the tests of the
    model, and a job for [c1]. *)
Lemma job_create_checks_company_witness :
  let c1 : Row := [("handle", JsStr "c1")] in
  let job : Row := [("title", JsStr "Administrator"); ("salary", JsNum 20000);
                    ("equity", JsStr "0.1"); ("companyHandle", JsStr "c1")] in
  let orphan : Row := [("title", JsStr "Administrator"); ("companyHandle", JsStr "nope")] in
  run (Job.create db_empty orphan)
  = (Throw (BadRequestError "No company with handle: nope"),
     [(Job.create_check_statement, [JsStr "nope"])])
  ∧ run (Job.create (db_const [c1]) job)
    = (Return (Some c1),
       [(Job.create_check_statement, [JsStr "c1"]);
        (Job.create_insert_statement,
         [JsStr "Administrator"; JsNum 20000; JsStr "0.1"; JsStr "c1"])]).
Proof.
  intros c1 job orphan. split.
  - exact (proj1 (job_create_checks_company db_empty orphan []) eq_refl).
  - exact (proj2 (proj2 (job_create_checks_company (db_const [c1]) job [])) c1 [] eq_refl).
Defined.

(** ** [Company.get] *)

Lemma obj_lookup_set o k p k' :
  obj_lookup (obj_set o k p) k' = if decide (k' = k) then Some p else obj_lookup o k'.
Proof.
  induction o as [|[k0 p0] o IH]; simpl.
  - repeat case_decide; congruence.
  - destruct (decide (k0 = k)) as [->|Hne]; simpl.
    + repeat case_decide; congruence.
    + rewrite IH. repeat case_decide; congruence.
Qed.

Lemma obj_lookup_delete o k k' :
  obj_lookup (obj_delete o k) k' = if decide (k' = k) then None else obj_lookup o k'.
Proof.
  induction o as [|[k0 p0] o IH]; simpl.
  - by case_decide.
  - destruct (decide (k0 = k)) as [->|Hne]; simpl; rewrite IH;
      repeat case_decide; congruence.
Qed.

Lemma obj_lookup_spread (row : Row) k p :
  obj_lookup (spread row) k = Some p → p = PVal (obj_get row k).
Proof.
  induction row as [|[k0 v0] row IH]; simpl; [done|].
  case_decide; [|done]. by intros [= <-].
Qed.

(** What [Company.get] does on any log once the answer has a row. *)
Lemma company_get_rows db handle log row0 rest :
  db Company.get_statement [handle] = Return {| rows := row0 :: rest |} →
  Company.get db handle log
  = (Return
       (obj_delete
          (obj_delete
             (obj_set (spread row0) "jobs"
                (PArr (if truthy (obj_get row0 "id")
                       then (λ row, obj_get row "id") <$> (row0 :: rest)
                       else [])))
             "id")
          "company_handle"),
     log ++ [(Company.get_statement, [handle])]).
Proof. intros Hdb. unfold Company.get, bind, db_query, ret. by rewrite Hdb. Qed.

(** X7. When the answer has no row, [Company.get] throws the
    NotFoundError that names the handle. Otherwise it returns an object
    made from the first row: it has no property [id] and no property
    [company_handle], and every property other than these two and [jobs]
    is a property of the first row with the value it has there, and
    conversely. *)
Theorem company_get_drops_job_columns (db : Db) (handle : JsVal) (log : list Statement) :
  (db Company.get_statement [handle] = Return {| rows := [] |} →
   Company.get db handle log
   = (Throw (NotFoundError ("No company with handle: " +:+ ToString handle)),
      log ++ [(Company.get_statement, [handle])]))
  ∧ (∀ row0 rest,
      db Company.get_statement [handle] = Return {| rows := row0 :: rest |} →
      ∃ company,
        Company.get db handle log
        = (Return company, log ++ [(Company.get_statement, [handle])])
        ∧ obj_lookup company "id" = None
        ∧ obj_lookup company "company_handle" = None
        ∧ (∀ k, k ≠ "id" → k ≠ "company_handle" → k ≠ "jobs" →
                obj_lookup company k = obj_lookup (spread row0) k)
        ∧ (∀ k p, obj_lookup (spread row0) k = Some p → p = PVal (obj_get row0 k))).
Proof.
  split.
  - intros Hdb. unfold Company.get, bind, db_query, throw. by rewrite Hdb.
  - intros row0 rest Hdb. eexists. split; [by apply company_get_rows|].
    split_and!.
    + rewrite !obj_lookup_delete. by repeat case_decide.
    + rewrite !obj_lookup_delete. by repeat case_decide.
    + intros k Hid Hch Hjobs. rewrite !obj_lookup_delete, obj_lookup_set.
      by repeat case_decide.
    + apply obj_lookup_spread.
Qed.

(** X8. The property [jobs] of the object [Company.get] returns is
    decided by the [id] of the first row: when it is truthy, [jobs] holds
    the [id] of every row of the answer, in order, one per row; when it is
    not (the [null] of a company without jobs), [jobs] is empty, whatever
    the other rows hold. *)
Theorem company_get_jobs
    (db : Db) (handle : JsVal) (log : list Statement) (row0 : Row) (rest : list Row) :
  db Company.get_statement [handle] = Return {| rows := row0 :: rest |} →
  ∃ company jobs,
    (Company.get db handle log).1 = Return company
    ∧ obj_lookup company "jobs" = Some (PArr jobs)
    ∧ (truthy (obj_get row0 "id") = true →
       length jobs = length (row0 :: rest)
       ∧ ∀ i row, (row0 :: rest) !! i = Some row → jobs !! i = Some (obj_get row "id"))
    ∧ (truthy (obj_get row0 "id") = false → jobs = []).
Proof.
  intros Hdb. rewrite (company_get_rows _ _ _ _ _ Hdb). cbn [fst].
  eexists _, _. split; [reflexivity|]. split.
  - rewrite !obj_lookup_delete, obj_lookup_set. by repeat case_decide.
  - split; intros Hid; rewrite Hid; [|done]. split.
    + by rewrite length_fmap.
    + intros i row Hi. by rewrite list_lookup_fmap, Hi.
Qed.

(** A company with two jobs, and a company without jobs, whose one row has
    [null] for the columns of the job. *)
Lemma company_get_jobs_witness :
  let r1 : Row := [("handle", JsStr "c1"); ("name", JsStr "C1"); ("id", JsNum 3);
                   ("company_handle", JsStr "c1")] in
  let r2 : Row := [("handle", JsStr "c1"); ("name", JsStr "C1"); ("id", JsNum 4);
                   ("company_handle", JsStr "c1")] in
  let r0 : Row := [("handle", JsStr "c2"); ("name", JsStr "C2"); ("id", JsNull);
                   ("company_handle", JsNull)] in
  (run (Company.get (db_const [r1; r2]) (JsStr "c1"))).1
  = Return [("handle", PVal (JsStr "c1")); ("name", PVal (JsStr "C1"));
            ("jobs", PArr [JsNum 3; JsNum 4])]
  ∧ (run (Company.get (db_const [r0]) (JsStr "c2"))).1
    = Return [("handle", PVal (JsStr "c2")); ("name", PVal (JsStr "C2")); ("jobs", PArr [])]
  ∧ (∃ company jobs,
        (run (Company.get (db_const [r1; r2]) (JsStr "c1"))).1 = Return company
        ∧ obj_lookup company "jobs" = Some (PArr jobs)
        ∧ jobs !! 1 = Some (JsNum 4))
  ∧ (∃ company,
        (run (Company.get (db_const [r0]) (JsStr "c2"))).1 = Return company
        ∧ obj_lookup company "jobs" = Some (PArr [])).
Proof.
  intros r1 r2 r0. split_and!; [reflexivity | reflexivity | |].
  - destruct (company_get_jobs (db_const [r1; r2]) (JsStr "c1") [] r1 [r2] eq_refl)
      as (company & jobs & Hret & Hjobs & Hids & _).
    exists company, jobs. split_and!; [exact Hret | exact Hjobs |].
    exact (proj2 (Hids eq_refl) 1 r2 eq_refl).
  - destruct (company_get_jobs (db_const [r0]) (JsStr "c2") [] r0 [] eq_refl)
      as (company & jobs & Hret & Hjobs & _ & Hnone).
    exists company. split; [exact Hret|]. by rewrite <- (Hnone eq_refl).
Defined.

(** A company with one job: the object has the columns of the company and
    [jobs], and not [id]. *)
Lemma company_get_drops_job_columns_witness :
  let r1 : Row := [("handle", JsStr "c1"); ("name", JsStr "C1"); ("id", JsNum 3);
                   ("company_handle", JsStr "c1")] in
  ∃ company,
    run (Company.get (db_const [r1]) (JsStr "c1"))
    = (Return company, [(Company.get_statement, [JsStr "c1"])])
    ∧ obj_lookup company "id" = None
    ∧ obj_lookup company "name" = Some (PVal (JsStr "C1")).
Proof.
  intros r1.
  destruct (proj2 (company_get_drops_job_columns (db_const [r1]) (JsStr "c1") [])
              r1 [] eq_refl)
    as (company & Hrun & Hid & _ & Hother & _).
  exists company. split_and!; [exact Hrun | exact Hid |].
  rewrite (Hother "name") by discriminate. reflexivity.
Defined.

(** ** Listing and filtering *)

Lemma truthy_js_or (a b : JsVal) : truthy (js_or a b) = truthy a || truthy b.
Proof. unfold js_or. by destruct (truthy a) eqn:Ha; rewrite ?Ha. Qed.

Lemma job_findAll_unfold db log :
  Job.findAll db log
  = (match db Job.findAll_statement [] with
     | Return res => Return (rows res)
     | Throw e => Throw e
     end,
     log ++ [(Job.findAll_statement, [])]).
Proof. unfold Job.findAll, bind, db_query, ret. by destruct (db _ _). Qed.

Lemma job_filter_of_unfold db query log :
  Job.filter_of db query log
  = match db (Job.statement (Job.build_of query)) (valueArr (Job.build_of query)) with
    | Return res =>
        (if length (rows res) =? 0
         then Throw (NotFoundError "No jobs found matching your search criteria")
         else Return (rows res),
         log ++ [(Job.statement (Job.build_of query), valueArr (Job.build_of query))])
    | Throw e =>
        (Throw e, log ++ [(Job.statement (Job.build_of query), valueArr (Job.build_of query))])
    end.
Proof.
  unfold Job.filter_of, bind, db_query, throw, ret.
  destruct (db _ _) as [res|e]; [|done]. by destruct (length (rows res) =? 0).
Qed.

(** On the object of a typed query, [filter] is the typed [filter]. *)
Lemma job_build_of_object (q : Job.Query) : Job.build_of (Job.object_of q) = Job.build q.
Proof. by destruct q as [[t|] [m|] [h|]]. Qed.

Lemma job_filter_of_object db (q : Job.Query) :
  Job.filter_of db (Job.object_of q) = Job.filter db q.
Proof. unfold Job.filter_of, Job.filter. by rewrite job_build_of_object. Qed.

(** Reading a property after an assignment. *)
Lemma obj_get_row_set_eq (o : Row) (k : string) (v : JsVal) :
  obj_get (row_set o k v) k = v.
Proof.
  induction o as [|[k' v'] o IH]; simpl.
  - by rewrite decide_True.
  - destruct (decide (k' = k)) as [->|Hne]; simpl.
    + by rewrite decide_True.
    + by rewrite decide_False.
Qed.

Lemma obj_get_row_set_ne (o : Row) (k k' : string) (v : JsVal) :
  k ≠ k' → obj_get (row_set o k v) k' = obj_get o k'.
Proof.
  intros Hk. induction o as [|[k0 v0] o IH]; simpl.
  - by rewrite decide_False.
  - destruct (decide (k0 = k)) as [->|Hne]; simpl.
    + by rewrite !decide_False.
    + by rewrite IH.
Qed.

(** What the two conversions leave in the three properties. *)
Lemma converted_properties (Number : JsVal → JsVal) (query : Row) :
  let converted := JobsRouter.convert_hasEquity (JobsRouter.convert_minSalary Number query) in
  let minSalary := obj_get query "minSalary" in
  let hasEquity := obj_get query "hasEquity" in
  obj_get converted "title" = obj_get query "title"
  ∧ obj_get converted "minSalary"
    = (if truthy minSalary then Number minSalary else minSalary)
  ∧ obj_get converted "hasEquity"
    = (if truthy hasEquity then JsBool (strict_eq hasEquity (JsStr "true")) else hasEquity).
Proof.
  intros converted minSalary hasEquity.
  assert (Hh : obj_get (JobsRouter.convert_minSalary Number query) "hasEquity" = hasEquity).
  { unfold JobsRouter.convert_minSalary. destruct (truthy _); [|done].
    by rewrite obj_get_row_set_ne. }
  assert (Ht : obj_get (JobsRouter.convert_minSalary Number query) "title"
               = obj_get query "title").
  { unfold JobsRouter.convert_minSalary. destruct (truthy _); [|done].
    by rewrite obj_get_row_set_ne. }
  assert (Hm : obj_get (JobsRouter.convert_minSalary Number query) "minSalary"
               = (if truthy minSalary then Number minSalary else minSalary)).
  { unfold JobsRouter.convert_minSalary. fold minSalary. destruct (truthy minSalary); [|done].
    by rewrite obj_get_row_set_eq. }
  unfold converted, JobsRouter.convert_hasEquity. rewrite Hh.
  destruct (truthy hasEquity).
  - destruct (strict_eq hasEquity (JsStr "true"));
      rewrite !obj_get_row_set_ne, obj_get_row_set_eq by done; by rewrite Ht, Hm.
  - by rewrite Ht, Hm, Hh.
Qed.

(** X9. The handler of [GET /jobs] converts the query first: a truthy
    [minSalary] to its [Number], a truthy [hasEquity] to the boolean that
    says whether it is the string [true]; [title] stays. It validates the
    converted query: when the validator rejects it, the handler passes on a
    BadRequestError with the validator's messages and sends nothing. An
    accepted query none of whose three properties is truthy after the
    conversions is answered by [Job.findAll], so an answer without rows
    gives the empty list (and any rows are returned as they are, with
    status 200); one with a truthy property is answered by [Job.filter] on
    the converted query, which throws the NotFoundError on an answer
    without rows. On the object of a typed query, [filter] is the typed
    [filter]. *)
Theorem jobs_listing_or_search (Number : JsVal → JsVal) (validate : Validate) (db : Db)
    (query : Row) (log : list Statement) :
  let title := obj_get query "title" in
  let minSalary := obj_get query "minSalary" in
  let hasEquity := obj_get query "hasEquity" in
  let converted := JobsRouter.convert_hasEquity (JobsRouter.convert_minSalary Number query) in
  let validator := validate converted jobSearchSchema in
  let criteria :=
    truthy title
    || (truthy minSalary && truthy (Number minSalary))
    || (truthy hasEquity && strict_eq hasEquity (JsStr "true")) in
  (obj_get converted "title" = title
   ∧ obj_get converted "minSalary"
     = (if truthy minSalary then Number minSalary else minSalary)
   ∧ obj_get converted "hasEquity"
     = (if truthy hasEquity then JsBool (strict_eq hasEquity (JsStr "true")) else hasEquity))
  ∧ (valid validator = false →
     JobsRouter.get_root Number validate db query log
     = (Failed (BadRequestErrors (errors validator)), log))
  ∧ (valid validator = true → criteria = false →
     JobsRouter.get_root Number validate db query log
     = respond (Job.findAll db) 200 jobs_body log)
  ∧ (valid validator = true → criteria = true →
     JobsRouter.get_root Number validate db query log
     = respond (Job.filter_of db converted) 200 jobs_body log)
  ∧ (∀ rs,
      valid validator = true → criteria = false →
      db Job.findAll_statement [] = Return {| rows := rs |} →
      JobsRouter.get_root Number validate db query log
      = (Json 200 (jobs_body rs), log ++ [(Job.findAll_statement, [])]))
  ∧ (valid validator = true → criteria = true →
     db (Job.statement (Job.build_of converted)) (valueArr (Job.build_of converted))
     = Return {| rows := [] |} →
     JobsRouter.get_root Number validate db query log
     = (Failed (Raised (NotFoundError "No jobs found matching your search criteria")),
        log ++ [(Job.statement (Job.build_of converted), valueArr (Job.build_of converted))]))
  ∧ (∀ q, Job.filter_of db (Job.object_of q) = Job.filter db q).
Proof.
  intros title minSalary hasEquity converted validator criteria.
  destruct (converted_properties Number query) as (Ht & Hm & Hh).
  fold converted minSalary hasEquity title in Ht, Hm, Hh.
  assert (Hguard : truthy (js_or (js_or (obj_get converted "title")
                                        (obj_get converted "minSalary"))
                                 (obj_get converted "hasEquity")) = criteria).
  { rewrite !truthy_js_or, Ht, Hm, Hh. unfold criteria.
    destruct (truthy minSalary) eqn:Em, (truthy hasEquity) eqn:Eh;
      cbn [truthy andb]; rewrite ?Em, ?Eh; done. }
  assert (Hrej : valid validator = false →
            JobsRouter.get_root Number validate db query log
            = (Failed (BadRequestErrors (errors validator)), log)).
  { intros Hv. unfold JobsRouter.get_root. fold converted validator. by rewrite Hv. }
  assert (Hall : valid validator = true → criteria = false →
            JobsRouter.get_root Number validate db query log
            = respond (Job.findAll db) 200 jobs_body log).
  { intros Hv Hc. unfold JobsRouter.get_root. fold converted validator.
    rewrite Hv. cbn [negb]. by rewrite Hguard, Hc. }
  assert (Hsearch : valid validator = true → criteria = true →
            JobsRouter.get_root Number validate db query log
            = respond (Job.filter_of db converted) 200 jobs_body log).
  { intros Hv Hc. unfold JobsRouter.get_root. fold converted validator.
    rewrite Hv. cbn [negb]. by rewrite Hguard, Hc. }
  split_and!; [done|done|done|done|done|done| | |].
  - intros rs Hv Hc Hdb. rewrite (Hall Hv Hc). unfold respond.
    by rewrite job_findAll_unfold, Hdb.
  - intros Hv Hc Hdb. rewrite (Hsearch Hv Hc). unfold respond.
    by rewrite job_filter_of_unfold, Hdb.
  - apply job_filter_of_object.
Qed.

(** On an empty table: [?bla=blabla] with a validator that rejects it is
    refused before any statement; [?hasEquity=false] is the listing, which
    returns no job; [?title=j] is a search, which throws. *)
Lemma jobs_listing_or_search_witness :
  let Number : JsVal → JsVal := λ v, v in
  let accept : Validate := λ _ _, {| valid := true; errors := [] |} in
  let reject : Validate :=
    λ o _, {| valid := bool_decide (obj_get o "bla" = JsUndefined); errors := ["bla"] |} in
  JobsRouter.get_root Number reject db_empty [("bla", JsStr "blabla")] []
  = (Failed (BadRequestErrors ["bla"]), [])
  ∧ JobsRouter.get_root Number accept db_empty [("hasEquity", JsStr "false")] []
    = (Json 200 (jobs_body []), [(Job.findAll_statement, [])])
  ∧ JobsRouter.get_root Number accept db_empty [("title", JsStr "j")] []
    = (Failed (Raised (NotFoundError "No jobs found matching your search criteria")),
       [(Job.firstPartOfQuery +:+ " title ILIKE $1 ORDER BY title", [JsStr "%j%"])]).
Proof.
  intros Number accept reject. split_and!.
  - exact (proj1 (proj2 (jobs_listing_or_search Number reject db_empty
                           [("bla", JsStr "blabla")] [])) eq_refl).
  - exact (proj1 (proj2 (proj2 (proj2 (proj2
             (jobs_listing_or_search Number accept db_empty
                [("hasEquity", JsStr "false")] [])))))
             [] eq_refl eq_refl eq_refl).
  - exact (proj1 (proj2 (proj2 (proj2 (proj2 (proj2
             (jobs_listing_or_search Number accept db_empty
                [("title", JsStr "j")] []))))))
             eq_refl eq_refl eq_refl).
Defined.

(** [GET /jobs?title=j&minSalary=10000&hasEquity=false] filters on the
    title and the salary; the text of the listing has no WHERE. *)
Example jobs_route_equity_false :
  let Number : JsVal → JsVal :=
    λ v, if decide (v = JsStr "10000") then JsNum 10000 else v in
  let accept : Validate := λ _ _, {| valid := true; errors := [] |} in
  (JobsRouter.get_root Number accept db_empty
     [("title", JsStr "j"); ("minSalary", JsStr "10000"); ("hasEquity", JsStr "false")] []).2
  = [(Job.firstPartOfQuery +:+ " title ILIKE $1 AND salary > $2 ORDER BY title",
      [JsStr "%j%"; JsNum 10000])]
  ∧ has_where Job.findAll_statement = false.
Proof. split; vm_compute; reflexivity. Qed.

(** X10. [Company.filter] sends nothing exactly when both bounds are
    given and [minEmployees] is above [maxEmployees], and then it throws
    the BadRequestError; in every other case, equal bounds and a single
    bound among them, it sends exactly one statement. The check reads the
    bounds as they are given: a zero bound, which the conditionals skip,
    still takes part in it. *)
Theorem company_filter_rejects_iff (db : Db) (q : Company.Query) (log : list Statement) :
  let inverted :=
    ∃ a b, Company.minEmployees q = Some a ∧ Company.maxEmployees q = Some b ∧ (b < a)%Z in
  ((Company.filter db q log).2 = log ↔ inverted)
  ∧ (inverted →
     Company.filter db q log
     = (Throw (BadRequestError
                 "Maximum employees number must be larger than minimum employees number."),
        log))
  ∧ (¬ inverted →
     (Company.filter db q log).2
     = log ++ [(Company.statement (Company.build q), valueArr (Company.build q))]).
Proof.
  intros inverted.
  assert (Hgt : js_gt (Company.minEmployees q) (Company.maxEmployees q) = true ↔ inverted).
  { unfold inverted, js_gt.
    destruct (Company.minEmployees q) as [a|], (Company.maxEmployees q) as [b|];
      try (split; [done | by intros (a' & b' & ? & ? & ?)]).
    rewrite Z.ltb_lt. split.
    - intros Hlt. by exists a, b.
    - by intros (a' & b' & [= <-] & [= <-] & Hlt). }
  assert (Hpass : ¬ inverted →
            (Company.filter db q log).2
            = log ++ [(Company.statement (Company.build q), valueArr (Company.build q))]).
  { intros Hn. rewrite company_filter_unfold.
    - by destruct (db _ _).
    - apply not_true_is_false. intros E. by apply Hgt in E. }
  assert (Hrej : inverted →
            Company.filter db q log
            = (Throw (BadRequestError
                        "Maximum employees number must be larger than minimum employees number."),
               log)).
  { intros Hi. apply Hgt in Hi. unfold Company.filter, throw. by rewrite Hi. }
  split_and!; [|done|done].
  - split.
    + intros Hlog. destruct (js_gt (Company.minEmployees q) (Company.maxEmployees q)) eqn:E.
      * by apply Hgt.
      * exfalso. assert (Hn : ¬ inverted) by (intros Hi; apply Hgt in Hi; discriminate Hi).
        rewrite (Hpass Hn) in Hlog. by apply snoc_ne in Hlog.
    + intros Hi. by rewrite (Hrej Hi).
Qed.

(** Equal bounds pass; a zero [minEmployees] above a negative
    [maxEmployees] is rejected. *)
Lemma company_filter_rejects_iff_witness :
  let equal := {| Company.name := None; Company.minEmployees := Some 2%Z;
                  Company.maxEmployees := Some 2%Z |} in
  let zero := {| Company.name := None; Company.minEmployees := Some 0%Z;
                 Company.maxEmployees := Some (-1)%Z |} in
  (run (Company.filter db_empty equal)).2
  = [(Company.firstPartOfQuery
      +:+ " num_employees >= $1 AND num_employees <= $2 ORDER BY name",
      [JsNum 2; JsNum 2])]
  ∧ run (Company.filter db_empty zero)
    = (Throw (BadRequestError
                "Maximum employees number must be larger than minimum employees number."),
       []).
Proof.
  intros equal zero. split.
  - apply (proj2 (proj2 (company_filter_rejects_iff db_empty equal []))).
    intros (a & b & [= <-] & [= <-] & Hlt). lia.
  - apply (proj1 (proj2 (company_filter_rejects_iff db_empty zero []))).
    exists 0%Z, (-1)%Z. split_and!; [reflexivity | reflexivity | lia].
Defined.

(** ** The middleware *)

(** The two middlewares in front of every route that writes. *)
Lemma admin_chain (req : Req) (res : Locals) :
  run_chain [Auth.ensureLoggedIn; Auth.ensureIsAdmin] req res
  = if is_admin res then Next
    else NextErr (UnauthorizedError
                    (match user res with
                     | None => None
                     | Some _ => Some "Only authorized for admins"
                     end)).
Proof.
  unfold run_chain, Auth.ensureLoggedIn, Auth.ensureIsAdmin, is_admin.
  destruct (user res) as [u|]; [|done]. by destruct (truthy _).
Qed.

(** X11. On a request without token payload [ensureIsAdmin] alone passes
    on a TypeError, not an UnauthorizedError. Behind [ensureLoggedIn], as
    the routes use it, the pair lets through exactly the requests whose
    payload has a truthy [isAdmin], and every other request ends with an
    UnauthorizedError: the one without message when there is no payload,
    the one for admins when [isAdmin] is not truthy. *)
Theorem admin_chain_passes_admins_only (req : Req) (res : Locals) :
  (user res = None → Auth.ensureIsAdmin req res = NextErr TypeError)
  ∧ (run_chain [Auth.ensureLoggedIn; Auth.ensureIsAdmin] req res = Next
     ↔ is_admin res = true)
  ∧ (∀ err,
      run_chain [Auth.ensureLoggedIn; Auth.ensureIsAdmin] req res = NextErr err →
      ∃ message, err = UnauthorizedError message)
  ∧ (user res = None →
     run_chain [Auth.ensureLoggedIn; Auth.ensureIsAdmin] req res
     = NextErr (UnauthorizedError None))
  ∧ (∀ u,
      user res = Some u → truthy (obj_get u "isAdmin") = false →
      run_chain [Auth.ensureLoggedIn; Auth.ensureIsAdmin] req res
      = NextErr (UnauthorizedError (Some "Only authorized for admins"))).
Proof.
  rewrite admin_chain. split_and!.
  - intros Hu. unfold Auth.ensureIsAdmin. by rewrite Hu.
  - by destruct (is_admin res).
  - intros err. destruct (is_admin res); [done|]. intros [= <-]. by eexists.
  - intros Hu. unfold is_admin. by rewrite Hu.
  - intros u Hu Hf. unfold is_admin. by rewrite Hu, Hf.
Qed.

(** A request without token, then the token of a user who is no admin. *)
Lemma admin_chain_passes_admins_only_witness :
  let anonymous := {| user := None |} in
  let u1 := {| user := Some [("username", JsStr "u1"); ("isAdmin", JsBool false)] |} in
  let req := {| params := []; body := [] |} in
  Auth.ensureIsAdmin req anonymous = NextErr TypeError
  ∧ run_chain [Auth.ensureLoggedIn; Auth.ensureIsAdmin] req anonymous
    = NextErr (UnauthorizedError None)
  ∧ run_chain [Auth.ensureLoggedIn; Auth.ensureIsAdmin] req u1
    = NextErr (UnauthorizedError (Some "Only authorized for admins")).
Proof.
  intros anonymous u1 req. split_and!.
  - exact (proj1 (admin_chain_passes_admins_only req anonymous) eq_refl).
  - exact (proj1 (proj2 (proj2 (proj2 (admin_chain_passes_admins_only req anonymous))))
             eq_refl).
  - exact (proj2 (proj2 (proj2 (proj2 (admin_chain_passes_admins_only req u1))))
             [("username", JsStr "u1"); ("isAdmin", JsBool false)] eq_refl eq_refl).
Defined.

(** X12. [ensureIsAdminOrSelf] lets a request through exactly when it has
    a token payload whose [username] is the [username] of the route, or
    whose [isAdmin] is truthy; whoever passes [ensureIsAdmin] passes it.
    Without payload it passes on a TypeError, and with a payload that is
    neither it passes on the UnauthorizedError [Not authorized]. *)
Theorem admin_or_self (req : Req) (res : Locals) :
  (Auth.ensureIsAdminOrSelf req res = Next
   ↔ ∃ u, user res = Some u
          ∧ (obj_get u "username" = obj_get (params req) "username"
             ∨ truthy (obj_get u "isAdmin") = true))
  ∧ (Auth.ensureIsAdmin req res = Next → Auth.ensureIsAdminOrSelf req res = Next)
  ∧ (user res = None → Auth.ensureIsAdminOrSelf req res = NextErr TypeError)
  ∧ (∀ u,
      user res = Some u →
      obj_get u "username" ≠ obj_get (params req) "username" →
      truthy (obj_get u "isAdmin") = false →
      Auth.ensureIsAdminOrSelf req res = NextErr (UnauthorizedError (Some "Not authorized"))).
Proof.
  unfold Auth.ensureIsAdminOrSelf, Auth.ensureIsAdmin, strict_eq.
  destruct (user res) as [u|]; split_and!; try done.
  - split.
    + intros H. exists u. split; [done|].
      destruct (bool_decide _) eqn:E; [left; by apply bool_decide_eq_true in E|].
      right. by destruct (truthy _).
    + intros (u' & [= <-] & [Heq|Hadm]).
      * by rewrite (bool_decide_eq_true_2 _ Heq).
      * rewrite Hadm. by rewrite orb_true_r.
  - destruct (truthy _); [|done]. by rewrite orb_true_r.
  - intros u' [= <-] Hne Hadm. by rewrite (bool_decide_eq_false_2 _ Hne), Hadm.
  - split; [done|]. by intros (u' & Hu & _).
Qed.

(** The user [u1] on the route of [u1], and on the route of [u2]. *)
Lemma admin_or_self_witness :
  let u1 := {| user := Some [("username", JsStr "u1"); ("isAdmin", JsBool false)] |} in
  let own := {| params := [("username", JsStr "u1")]; body := [] |} in
  let other := {| params := [("username", JsStr "u2")]; body := [] |} in
  Auth.ensureIsAdminOrSelf own u1 = Next
  ∧ Auth.ensureIsAdminOrSelf other u1 = NextErr (UnauthorizedError (Some "Not authorized")).
Proof.
  intros u1 own other. split.
  - apply (proj1 (admin_or_self own u1)).
    exists [("username", JsStr "u1"); ("isAdmin", JsBool false)].
    split; [reflexivity | left; reflexivity].
  - apply (proj2 (proj2 (proj2 (admin_or_self other u1)))
             [("username", JsStr "u1"); ("isAdmin", JsBool false)]);
      [reflexivity | discriminate | reflexivity].
Defined.

(** ** The routes of the jobs *)

Lemma app_cons_ne {A} (l r : list A) (x : A) : l ++ x :: r ≠ l.
Proof.
  intros H. apply (f_equal length) in H. rewrite length_app in H. simpl in H. lia.
Qed.

Lemma respond_log {A} (c : Async A) status (json : A → Body) log :
  (respond c status json log).2 = (c log).2.
Proof. unfold respond. by destruct (c log) as [[a|e] log']. Qed.

(** A route behind the two middlewares: its handler for an admin, the
    UnauthorizedError and an untouched log for anyone else. *)
Lemma admin_route (handler : Handler) req res log :
  route [Auth.ensureLoggedIn; Auth.ensureIsAdmin] handler req res log
  = if is_admin res then handler req res log
    else (Failed (UnauthorizedError
                    (match user res with
                     | None => None
                     | Some _ => Some "Only authorized for admins"
                     end)),
          log).
Proof. unfold route. rewrite admin_chain. by destruct (is_admin res). Qed.

Lemma job_create_sends db data log :
  ∃ rest,
    (Job.create db data log).2
    = log ++ (Job.create_check_statement, [obj_get data "companyHandle"]) :: rest.
Proof.
  unfold Job.create, bind, db_query, throw, ret.
  destruct (db _ _) as [res|e]; [|by exists []].
  destruct (length (rows res) =? 0); [by exists []|].
  eexists [_]. rewrite <- (assoc_L (++)). by destruct (db _ _).
Qed.

Lemma job_remove_log db id log :
  (Job.remove db id log).2 = log ++ [(Job.remove_statement, [id])].
Proof.
  unfold Job.remove, bind, db_query, throw, ret.
  destruct (db _ _) as [res|e]; [|done]. by destruct (head (rows res)).
Qed.

Lemma job_get_log db id log :
  (Job.get db id log).2 = log ++ [(Job.get_statement, [id])].
Proof.
  unfold Job.get, bind, db_query, throw, ret.
  destruct (db _ _) as [res|e]; [|done]. by destruct (head (rows res)).
Qed.

(** X13. A request that is not the request of an admin (no token payload,
    or a payload whose [isAdmin] is not truthy) gets an UnauthorizedError
    from [POST /jobs], [PATCH /jobs/:id] and [DELETE /jobs/:id], whatever
    its body and whatever the validator and the database would answer, and
    no statement is sent: the one without message when there is no payload,
    the one for admins otherwise. *)
Theorem jobs_writes_refuse_non_admins
    (validate : Validate) (Number : JsVal → JsVal) (db : Db)
    (req : Req) (res : Locals) (log : list Statement) :
  is_admin res = false →
  let message :=
    match user res with
    | None => None
    | Some _ => Some "Only authorized for admins"
    end in
  JobsRouter.post_root validate db req res log = (Failed (UnauthorizedError message), log)
  ∧ JobsRouter.patch_id validate db req res log = (Failed (UnauthorizedError message), log)
  ∧ JobsRouter.delete_id Number db req res log
    = (Failed (UnauthorizedError message), log).
Proof.
  intros Hadm message.
  unfold JobsRouter.post_root, JobsRouter.patch_id, JobsRouter.delete_id.
  rewrite !admin_route, Hadm. done.
Qed.

(** The user [u1], who is no admin, patching a job. *)
Lemma jobs_writes_refuse_non_admins_witness :
  let u1 := {| user := Some [("username", JsStr "u1"); ("isAdmin", JsBool false)] |} in
  let req := {| params := [("id", JsStr "1")]; body := [("title", JsStr "New")] |} in
  let validate : Validate := λ _ _, {| valid := true; errors := [] |} in
  is_admin u1 = false
  ∧ JobsRouter.patch_id validate db_empty req u1 []
    = (Failed (UnauthorizedError (Some "Only authorized for admins")), []).
Proof.
  intros u1 req validate. split; [reflexivity|].
  exact (proj1 (proj2 (jobs_writes_refuse_non_admins validate id db_empty req u1 []
                         eq_refl))).
Defined.

(** A request that is refused leaves the log as it was. *)
Ltac refused :=
  cbn [snd]; split; [by intros [] | intros H; decompose [and] H; discriminate].

(** X14. When the routes of the jobs reach the database: [POST /jobs]
    sends a statement exactly for an admin with a valid body;
    [PATCH /jobs/:id] exactly for an admin with a valid body that has a
    key; [DELETE /jobs/:id] exactly for an admin; [GET /jobs/:id] always.
    An admin's body the validator rejects is answered with the messages of
    the validator, and an admin's valid body without keys with the
    BadRequestError [No data] of [sqlForPartialUpdate]. *)
Theorem jobs_routes_reach_database
    (validate : Validate) (Number : JsVal → JsVal) (db : Db)
    (req : Req) (res : Locals) (log : list Statement) :
  ((JobsRouter.post_root validate db req res log).2 ≠ log
   ↔ is_admin res = true ∧ valid (validate (body req) jobNewSchema) = true)
  ∧ ((JobsRouter.patch_id validate db req res log).2 ≠ log
     ↔ is_admin res = true ∧ valid (validate (body req) jobUpdateSchema) = true
       ∧ body req ≠ [])
  ∧ ((JobsRouter.delete_id Number db req res log).2 ≠ log ↔ is_admin res = true)
  ∧ (JobsRouter.get_id db req res log).2 ≠ log
  ∧ (is_admin res = true →
     valid (validate (body req) jobUpdateSchema) = false →
     JobsRouter.patch_id validate db req res log
     = (Failed (BadRequestErrors (errors (validate (body req) jobUpdateSchema))), log))
  ∧ (is_admin res = true →
     valid (validate (body req) jobUpdateSchema) = true →
     body req = [] →
     JobsRouter.patch_id validate db req res log
     = (Failed (Raised (BadRequestError "No data")), log)).
Proof.
  unfold JobsRouter.post_root, JobsRouter.patch_id, JobsRouter.delete_id,
    JobsRouter.get_id.
  rewrite !admin_route. split_and!.
  - destruct (is_admin res); [|refused].
    destruct (valid _); cbn [negb snd]; [|refused].
    rewrite respond_log. destruct (job_create_sends db (body req) log) as [rest ->].
    split; [done|]. intros _. apply app_cons_ne.
  - destruct (is_admin res); [|refused].
    destruct (valid _); cbn [negb snd]; [|refused].
    rewrite respond_log.
    pose proof (job_update_log_iff db (obj_get (params req) "id") (body req) log) as Hiff.
    split.
    + intros Hsent. split_and!; [done|done|]. intros Hb. by apply Hsent, Hiff.
    + intros (_ & _ & Hne) Hlog. by apply Hne, Hiff.
  - destruct (is_admin res); cbn [snd]; [|refused].
    rewrite respond_log, job_remove_log. split; [done|]. intros _. apply snoc_ne.
  - unfold route. cbn [run_chain]. rewrite respond_log, job_get_log. apply snoc_ne.
  - intros -> ->. done.
  - intros -> -> ->. done.
Qed.

(** An admin whose body the validator rejects, and an admin with an empty
    body that the validator accepts. *)
Lemma jobs_routes_reach_database_witness :
  let admin := {| user := Some [("username", JsStr "admin"); ("isAdmin", JsBool true)] |} in
  let bad := {| params := [("id", JsStr "1")]; body := [("id", JsNum 7)] |} in
  let empty := {| params := [("id", JsStr "1")]; body := [] |} in
  let reject : Validate :=
    λ _ _, {| valid := false; errors := ["instance is not allowed to have the property id"] |} in
  let accept : Validate := λ _ _, {| valid := true; errors := [] |} in
  (is_admin admin = true ∧ valid (reject (body bad) jobUpdateSchema) = false)
  ∧ JobsRouter.patch_id reject db_empty bad admin []
    = (Failed (BadRequestErrors ["instance is not allowed to have the property id"]), [])
  ∧ JobsRouter.patch_id accept db_empty empty admin []
    = (Failed (Raised (BadRequestError "No data")), []).
Proof.
  intros admin bad empty reject accept. split; [split; reflexivity|]. split.
  - exact (proj1 (proj2 (proj2 (proj2 (proj2
             (jobs_routes_reach_database reject id db_empty bad admin [])))))
             eq_refl eq_refl).
  - exact (proj2 (proj2 (proj2 (proj2 (proj2
             (jobs_routes_reach_database accept id db_empty empty admin [])))))
             eq_refl eq_refl eq_refl).
Defined.

(** ** The two writings of [Company.filter] *)

(** X15. The other writing of [Company.filter], which keeps the fragment
    of the name apart from those of the bounds and joins them at the end,
    binds the same values and composes the same text between WHERE and
    ORDER BY as [Company.filter], for every query; its statement differs
    by one more blank after WHERE, so its WHERE is left without condition
    for the same queries; and it rejects the same queries with the same
    error. *)
Theorem company_filter_writings_agree (q : Company.Query) :
  CompanyAlt.valueArray (CompanyAlt.build q) = valueArr (Company.build q)
  ∧ CompanyAlt.queryStringMiddle (CompanyAlt.build q)
    = join " AND " (middlePartOfQueryArr (Company.build q))
  ∧ CompanyAlt.statement (CompanyAlt.build q)
    = Company.firstPartOfQuery +:+ "  "
      +:+ join " AND " (middlePartOfQueryArr (Company.build q))
      +:+ " " +:+ Company.lastPartOfQuery
  ∧ dangling_where (CompanyAlt.statement (CompanyAlt.build q))
    = dangling_where (Company.statement (Company.build q))
  ∧ (∀ db log,
      js_gt (Company.minEmployees q) (Company.maxEmployees q) = true →
      CompanyAlt.filter db q log = Company.filter db q log)
  ∧ (∀ db log,
      js_gt (Company.minEmployees q) (Company.maxEmployees q) = false →
      (CompanyAlt.filter db q log).2
      = log ++ [(CompanyAlt.statement (CompanyAlt.build q), valueArr (Company.build q))]).
Proof.
  assert (Hvals : CompanyAlt.valueArray (CompanyAlt.build q) = valueArr (Company.build q)).
  { unfold CompanyAlt.build, CompanyAlt.join_middle, CompanyAlt.add_maxEmployees,
      CompanyAlt.add_minEmployees, CompanyAlt.add_name, Company.build,
      Company.add_maxEmployees, Company.add_minEmployees, Company.add_name.
    destruct (truthy (opt_str _)), (truthy (opt_num (Company.minEmployees q))),
      (truthy (opt_num (Company.maxEmployees q))); done. }
  assert (Hmid : CompanyAlt.queryStringMiddle (CompanyAlt.build q)
                 = join " AND " (middlePartOfQueryArr (Company.build q))).
  { unfold CompanyAlt.build, CompanyAlt.join_middle, CompanyAlt.add_maxEmployees,
      CompanyAlt.add_minEmployees, CompanyAlt.add_name, Company.build,
      Company.add_maxEmployees, Company.add_minEmployees, Company.add_name.
    destruct (truthy (opt_str _)), (truthy (opt_num (Company.minEmployees q))),
      (truthy (opt_num (Company.maxEmployees q))); done. }
  split_and!; [done|done| | | |].
  - unfold CompanyAlt.statement. rewrite Hmid. done.
  - unfold CompanyAlt.statement, Company.statement. rewrite Hmid.
    unfold Company.build, Company.add_maxEmployees, Company.add_minEmployees,
      Company.add_name.
    destruct (truthy (opt_str _)), (truthy (opt_num (Company.minEmployees q))),
      (truthy (opt_num (Company.maxEmployees q))); vm_compute; reflexivity.
  - intros db log Hgt. unfold CompanyAlt.filter, Company.filter. by rewrite Hgt.
  - intros db log Hgt. unfold CompanyAlt.filter, bind, db_query, throw, ret.
    rewrite Hgt, Hvals. destruct (db _ _) as [res|e]; [|done].
    by destruct (length (rows res) =? 0).
Qed.

(** A name and one bound: the two statements, one blank apart, and no
    statement for bounds in the wrong order. *)
Lemma company_filter_writings_agree_witness :
  let q := {| Company.name := Some "net"; Company.minEmployees := None;
              Company.maxEmployees := Some 3%Z |} in
  let bad := {| Company.name := None; Company.minEmployees := Some 3%Z;
                Company.maxEmployees := Some 1%Z |} in
  (run (CompanyAlt.filter db_empty q)).2
  = [(Company.firstPartOfQuery +:+ "  name ILIKE $1 AND num_employees <= $2 ORDER BY name",
      [JsStr "%net%"; JsNum 3])]
  ∧ (run (Company.filter db_empty q)).2
    = [(Company.firstPartOfQuery +:+ " name ILIKE $1 AND num_employees <= $2 ORDER BY name",
        [JsStr "%net%"; JsNum 3])]
  ∧ run (CompanyAlt.filter db_empty bad) = run (Company.filter db_empty bad).
Proof.
  intros q bad. split_and!; [|reflexivity|].
  - exact (proj2 (proj2 (proj2 (proj2 (proj2 (company_filter_writings_agree q)))))
             db_empty [] eq_refl).
  - exact (proj1 (proj2 (proj2 (proj2 (proj2 (company_filter_writings_agree bad)))))
             db_empty [] eq_refl).
Defined.

(** ** More on [sqlForPartialUpdate] *)

Lemma join_app (sep : string) (l1 l2 : list string) :
  l1 ≠ [] → l2 ≠ [] → join sep (l1 ++ l2) = join sep l1 +:+ sep +:+ join sep l2.
Proof.
  intros H1 H2. induction l1 as [|x [|y l1] IH]; [done| |].
  - destruct l2 as [|z l2]; done.
  - change ((x :: y :: l1) ++ l2) with (x :: y :: (l1 ++ l2)).
    rewrite !join_cons_cons.
    change (y :: l1 ++ l2) with ((y :: l1) ++ l2). rewrite IH by done.
    by rewrite !string_app_assoc.
Qed.

Lemma column_ext M M' k : M !! k = M' !! k → Sql.column M k = Sql.column M' k.
Proof. intros H. unfold Sql.column, Sql.get. by rewrite H. Qed.

(** X16. [sqlForPartialUpdate] reads the map of field names at the keys
    of the data only: two maps with the same entries for these keys give
    the same result. So for data with neither [numEmployees] nor
    [logoUrl], the map of [Company.update] and the empty map of
    [Job.update] give the same SET list. *)
Theorem sqlForPartialUpdate_reads_keys_of_data (P : list (string * JsVal)) :
  (∀ M M' : gmap string string,
      (∀ k, k ∈ P.*1 → M !! k = M' !! k) →
      Sql.sqlForPartialUpdate P M = Sql.sqlForPartialUpdate P M')
  ∧ ("numEmployees" ∉ P.*1 → "logoUrl" ∉ P.*1 →
     Sql.sqlForPartialUpdate P Company.jsToSql = Sql.sqlForPartialUpdate P ∅).
Proof.
  assert (Hext : ∀ M M' : gmap string string,
             (∀ k, k ∈ P.*1 → M !! k = M' !! k) →
             Sql.sqlForPartialUpdate P M = Sql.sqlForPartialUpdate P M').
  { intros M M' Hagree. destruct P as [|kv P]; [done|].
    rewrite !sqlForPartialUpdate_cons. do 3 f_equal.
    apply list_eq. intros i. rewrite !cols_lookup.
    destruct (Sql.Object_keys (kv :: P) !! i) as [k|] eqn:Hk; [|done]. simpl.
    do 3 f_equal. apply column_ext, Hagree. by eapply list_elem_of_lookup_2. }
  split; [done|]. intros Hn Hl. apply Hext. intros k Hk.
  rewrite company_jsToSql_lookup, lookup_empty.
  repeat case_decide; congruence.
Qed.

(** A company update of the name and the description. *)
Lemma sqlForPartialUpdate_reads_keys_of_data_witness :
  let P := [("name", JsStr "New"); ("description", JsStr "New Description")] in
  (("numEmployees" ∉ P.*1) ∧ ("logoUrl" ∉ P.*1))
  ∧ Sql.sqlForPartialUpdate P Company.jsToSql = Sql.sqlForPartialUpdate P ∅.
Proof.
  intros P.
  assert (Hn : "numEmployees" ∉ P.*1).
  { intros H. apply list_elem_of_In in H. simpl in H.
    decompose [or] H; discriminate || contradiction. }
  assert (Hl : "logoUrl" ∉ P.*1).
  { intros H. apply list_elem_of_In in H. simpl in H.
    decompose [or] H; discriminate || contradiction. }
  split; [by split|].
  exact (proj2 (sqlForPartialUpdate_reads_keys_of_data P) Hn Hl).
Defined.

(** X17. Keys added after the keys of some data leave the fragments and
    the values of these as they are and are numbered after them: the
    fragments of [P1 ++ P2] are those of [P1] followed by those of [P2]
    with the placeholders [$(n+1)], [$(n+2)], ... for [n] the number of
    keys of [P1], the values are those of [P1] followed by those of [P2],
    and when both have keys [setCols] is the [setCols] of [P1], a comma
    and a blank, and the fragments of [P2] joined. *)
Theorem sqlForPartialUpdate_app (P1 P2 : list (string * JsVal)) (M : gmap string string) :
  let added :=
    imap (λ idx colName,
            dq +:+ Sql.column M colName +:+ dq +:+ "=" +:+ placeholder (length P1 + idx + 1))
         P2.*1 in
  Sql.cols (P1 ++ P2).*1 M = Sql.cols P1.*1 M ++ added
  ∧ Sql.Object_values (P1 ++ P2) = Sql.Object_values P1 ++ Sql.Object_values P2
  ∧ (∀ i, i < length P1 → Sql.cols (P1 ++ P2).*1 M !! i = Sql.cols P1.*1 M !! i)
  ∧ (P1 ≠ [] → P2 ≠ [] →
     ∃ clause1 clause,
       Sql.sqlForPartialUpdate P1 M = Return clause1
       ∧ Sql.sqlForPartialUpdate (P1 ++ P2) M = Return clause
       ∧ Sql.setCols clause = Sql.setCols clause1 +:+ ", " +:+ join ", " added
       ∧ Sql.values clause = Sql.values clause1 ++ P2.*2).
Proof.
  intros added.
  assert (Hcols : Sql.cols (P1 ++ P2).*1 M = Sql.cols P1.*1 M ++ added).
  { unfold Sql.cols, added. by rewrite fmap_app, imap_app, length_fmap. }
  split_and!; [done| | |].
  - unfold Sql.Object_values. by rewrite fmap_app.
  - intros i Hi. rewrite Hcols. apply lookup_app_l. by rewrite length_cols, length_fmap.
  - intros H1 H2. destruct P1 as [|kv1 P1]; [done|].
    eexists _, _. split; [apply sqlForPartialUpdate_cons|].
    split; [apply (sqlForPartialUpdate_cons kv1 (P1 ++ P2))|].
    cbn [Sql.setCols Sql.values]. split.
    + change (kv1 :: P1 ++ P2) with ((kv1 :: P1) ++ P2). unfold Sql.Object_keys.
      rewrite Hcols. apply join_app; [done|].
      unfold added. destruct P2; done.
    + change (kv1 :: P1 ++ P2) with ((kv1 :: P1) ++ P2). unfold Sql.Object_values.
      by rewrite fmap_app.
Qed.

(** The two items of the test of the helper, as one item and one more. *)
Lemma sqlForPartialUpdate_app_witness :
  let P1 := [("firstName", JsStr "test")] in
  let P2 := [("age", JsNum 30)] in
  let M : gmap string string := {[ "firstName" := "first_name" ]} in
  (P1 ≠ [] ∧ P2 ≠ [])
  ∧ ∃ clause1 clause,
      Sql.sqlForPartialUpdate P1 M = Return clause1
      ∧ Sql.sqlForPartialUpdate (P1 ++ P2) M = Return clause
      ∧ Sql.setCols clause = Sql.setCols clause1 +:+ ", " +:+ dq +:+ "age" +:+ dq +:+ "=$2"
      ∧ Sql.values clause = Sql.values clause1 ++ [JsNum 30].
Proof.
  intros P1 P2 M.
  assert (H1 : P1 ≠ []) by discriminate.
  assert (H2 : P2 ≠ []) by discriminate.
  split; [by split|].
  exact (proj2 (proj2 (proj2 (sqlForPartialUpdate_app P1 P2 M))) H1 H2).
Defined.
